(** * Virtual-screening pipeline: a shallow embedding of [main.py] and [plots.py]

    The pipeline fetches two properties of ten named compounds from a
    web service, computes a lipophilicity descriptor, draws a random
    affinity score, appends one row per compound to a SQLite table,
    exports the table to a CSV file and, as a separate stage, renders a
    dashboard image from that file.

    Python values are modelled by [pyval]; JSON objects are finite maps
    ([gmap string pyval]).  A Python [str] is modelled by its UTF-8
    bytes, a lone surrogate (which UTF-8 cannot encode, and which a JSON
    escape can produce) by the three bytes ED A0..BF xx.  A finite
    Python [float] is modelled by a rational of [Q], NaN and the two
    infinities by values of their own; the arithmetic and the rounding
    of the scoring code are taken exactly on [Q], and what is stated of
    them is kept to what holds of the doubles as well.  Effects (stdout,
    HTTP requests, the random generator, the database, the two output
    files) are threaded through an exception-and-state monad [M].
    Everything
    the program obtains from outside (the web service, RDKit, the random
    generator, SQLite's text/number conversions, pandas and matplotlib)
    is a field of an environment record, so that every theorem holds for
    all behaviours of the outside world. *)

From stdpp Require Import gmap strings list.
From Stdlib Require Import ZArith QArith Qround Lia Lqa.

Set Warnings "-register-all".
Local Open Scope string_scope.

(** ** Python values and exceptions *)

(** The exceptions below are all subclasses of Python's [Exception], so
    an [except Exception] clause catches every one of them. *)
Inductive exn :=
  | KeyError
  | TypeError
  | IndexError
  | AttributeError
  | JSONDecodeError
  | RequestException (what : string)
  | OperationalError
  | ProgrammingError
  | OverflowError
  | UnicodeEncodeError
  | FileNotFoundError
  | LibraryError (what : string).

Inductive res (A : Type) :=
  | Ok (a : A)
  | Raise (e : exn).
Arguments Ok {A} a.
Arguments Raise {A} e.

Inductive pyval :=
  | PNone
  | PBool (b : bool)
  | PInt (n : Z)
  | PFloat (q : Q)             (* a finite float *)
  | PNaN                       (* float('nan') *)
  | PInf (negative : bool)     (* float('inf'), float('-inf') *)
  | PStr (s : string)
  | PList (l : list pyval)
  | PDict (d : gmap string pyval).

(** [v is None] *)
Definition is_none (v : pyval) : bool :=
  match v with PNone => true | _ => false end.

(** Python truth value, as tested by [if not v]. *)
Definition truthy (v : pyval) : bool :=
  match v with
  | PNone => false
  | PBool b => b
  | PInt n => negb (n =? 0)%Z
  | PFloat q => negb (Qeq_bool q 0)
  | PNaN => true
  | PInf _ => true
  | PStr s => negb (String.eqb s "")
  | PList l => negb (Nat.eqb (length l) 0)
  | PDict d => negb (Nat.eqb (size d) 0)
  end.

(** [v[k]] for a string key [k]. *)
Definition getitem_key (v : pyval) (k : string) : res pyval :=
  match v with
  | PDict d => match d !! k with Some x => Ok x | None => Raise KeyError end
  | _ => Raise TypeError
  end.

(** [v[0]].  A JSON object has string keys only, so the integer key is
    never found in a dict. *)
Definition getitem_0 (v : pyval) : res pyval :=
  match v with
  | PList l => match l with x :: _ => Ok x | [] => Raise IndexError end
  | PStr s =>
      match s with
      | String c _ => Ok (PStr (String c EmptyString))
      | EmptyString => Raise IndexError
      end
  | PDict _ => Raise KeyError
  | _ => Raise TypeError
  end.

(** [v.get(k)]: only dicts have the method. *)
Definition dict_get (v : pyval) (k : string) : res pyval :=
  match v with
  | PDict d => Ok (default PNone (d !! k))
  | _ => Raise AttributeError
  end.

(** ** Rounding: Python's [round(x, ndigits)] on exact values *)

Definition round_half_even (x : Q) : Z :=
  let f := Qfloor x in
  match Qcompare (x - inject_Z f) (1 # 2) with
  | Lt => f
  | Gt => (f + 1)%Z
  | Eq => if Z.even f then f else (f + 1)%Z
  end.

Definition py_round (x : Q) (ndigits : nat) : Q :=
  let scale := Z.to_pos (10 ^ Z.of_nat ndigits) in
  Qmake (round_half_even (x * inject_Z (Zpos scale))) scale.

(** ** The SQLite table and the files *)

(** A stored cell: SQLite's storage classes (BLOB is never produced).
    A REAL is finite ([SReal]) or infinite ([SRealInf]); there is no NaN
    among them, SQLite keeps NULL in its place. *)
Inductive sqlval :=
  | SNull
  | SInteger (n : Z)
  | SReal (q : Q)
  | SRealInf (negative : bool)
  | SText (s : string).

(** What a numeric text converts to. *)
Inductive real_value :=
  | Finite (q : Q)
  | Infinite (negative : bool).

Definition sql_of_real (x : real_value) : sqlval :=
  match x with
  | Finite q => SReal q
  | Infinite negative => SRealInf negative
  end.

Inductive affinity := TEXT | REAL.

(** One row of [screening_results], columns in declaration order. *)
Record row := {
  col_name : sqlval;
  col_type : sqlval;
  col_smiles : sqlval;
  col_mw : sqlval;
  col_logp : sqlval;
  col_score : sqlval;
}.

(** The tuple [fetchall] returns for a row ([SELECT *]). *)
Definition row_tuple (r : row) : list sqlval :=
  [col_name r; col_type r; col_smiles r; col_mw r; col_logp r; col_score r].

Definition csv_record := list sqlval.

Inductive image := Figure (dpi : Z).

(** ** Observable events *)

Inductive msg :=
  | MsgProcessing (drug_name : string)
  | MsgConnecting (drug_name : string)
  | MsgFoundMW (molecular_weight : pyval)
  | MsgStatusError (status_code : Z)
  | MsgCriticalError (error_message : exn)
  | MsgLogPError
  | MsgSetupDb
  | MsgExporting
  | MsgExportSuccess
  | MsgStep3 (affinity_score : Q)
  | MsgSkipping (drug_name : string)
  | MsgSeparator
  | MsgAllDone
  | MsgDataLoaded
  | MsgLoadError (e : exn)
  | MsgDashboardSaved (output_file : string).

Inductive event :=
  | Print (m : msg)
  | HttpGet (url : string) (user_agent : string) (timeout : Z)
  | Sleep (seconds : Z).

(** ** The mutable world *)

(** [db] is the table [screening_results] of [results.db]: [None] when
    there is no such table, [Some rows] when it exists with the layout
    [create_database] gives it (six unconstrained columns).  A table of
    that name with another layout, and a file system that refuses the
    CSV file, are not states of this world: what is proved about
    failures is proved for the failures the world has. *)
Record world := {
  db : option (list row);              (* table screening_results of results.db *)
  csv_file : option (list csv_record); (* natvssynt.csv *)
  png_file : option image;             (* dashboard.png *)
  rng_pos : nat;                       (* samples drawn so far *)
  out : list event;                    (* events so far, oldest first *)
}.

Definition set_db (t : option (list row)) (w : world) : world :=
  {| db := t; csv_file := csv_file w; png_file := png_file w;
     rng_pos := rng_pos w; out := out w |}.

Definition set_csv_file (f : option (list csv_record)) (w : world) : world :=
  {| db := db w; csv_file := f; png_file := png_file w;
     rng_pos := rng_pos w; out := out w |}.

Definition set_png_file (f : option image) (w : world) : world :=
  {| db := db w; csv_file := csv_file w; png_file := f;
     rng_pos := rng_pos w; out := out w |}.

Definition set_rng_pos (n : nat) (w : world) : world :=
  {| db := db w; csv_file := csv_file w; png_file := png_file w;
     rng_pos := n; out := out w |}.

Definition emit (evs : list event) (w : world) : world :=
  {| db := db w; csv_file := csv_file w; png_file := png_file w;
     rng_pos := rng_pos w; out := out w ++ evs |}.

(** ** The monad: a computation either returns or raises, and in both
    cases leaves a world behind. *)

Definition M (A : Type) : Type := world -> res A * world.

Definition ret {A} (a : A) : M A := fun w => (Ok a, w).

Definition raise {A} (e : exn) : M A := fun w => (Raise e, w).

Definition bind {A B} (m : M A) (k : A -> M B) : M B :=
  fun w =>
    match m w with
    | (Ok a, w') => k a w'
    | (Raise e, w') => (Raise e, w')
    end.

Notation "x <- c1 ;; c2" := (bind c1 (fun x => c2))
  (at level 100, c1 at next level, right associativity).
Notation "c1 ;; c2" := (bind c1 (fun _ => c2))
  (at level 100, right associativity).

(** [try: body except Exception as e: handler e] *)
Definition try_except {A} (body : M A) (handler : exn -> M A) : M A :=
  fun w =>
    match body w with
    | (Ok a, w') => (Ok a, w')
    | (Raise e, w') => handler e w'
    end.

Definition lift {A} (r : res A) : M A := fun w => (r, w).

(** [print(...)]: the standard output is taken to accept every
    message. *)
Definition print (m : msg) : M unit := fun w => (Ok tt, emit [Print m] w).

Definition time_sleep (seconds : Z) : M unit :=
  fun w => (Ok tt, emit [Sleep seconds] w).

(** [for x in xs: body x] *)
Fixpoint for_each {A} (xs : list A) (body : A -> M unit) : M unit :=
  match xs with
  | [] => ret tt
  | x :: rest => body x ;; for_each rest body
  end.

(** ** The outside world of [main.py] *)

Record response := {
  status_code : Z;
  json : res pyval;   (* what [response.json()] returns or raises *)
}.

Record Env := {
  (** [requests.get(url, ...)]: a reply, or a transport error. *)
  requests_get : string -> res response;
  (** RDKit molecules, [Chem.MolFromSmiles] and [Descriptors.MolLogP]. *)
  Mol : Type;
  MolFromSmiles : pyval -> res (option Mol);
  MolLogP : Mol -> res Q;
  (** The successive results of [random.random()], each in [0, 1). *)
  random_random : nat -> Q;
  random_random_unit : forall n : nat, (0 <= random_random n < 1)%Q;
  (** SQLite's conversions between numbers and their text form. *)
  text_of_integer : Z -> string;
  text_of_real : Q -> string;
  text_of_infinity : bool -> string;
  numeric_of_text : string -> option real_value;
}.

(** ** Section 1 of [main.py]: the compound lists *)

Definition NATURAL_SUBSTRATES : list string :=
  ["Dihydrofolate"; "Folic Acid"; "Tetrahydrofolate";
   "7,8-Dihydrobiopterin"; "L-Methionine"].

Definition SYNTHETIC_INHIBITORS : list string :=
  ["Methotrexate"; "Pemetrexed"; "Aminopterin"; "Trimethoprim";
   "Pyrimethamine"].

(** [BASE_URL.format(drug_name)] *)
Definition BASE_URL_format (drug_name : string) : string :=
  "https://pubchem.ncbi.nlm.nih.gov/rest/pug/compound/name/" ++ drug_name
  ++ "/property/MolecularWeight,IsomericSMILES/JSON".

(** ** Section 2 of [main.py]: the functions *)

Definition http_get (E : Env) (url user_agent : string) (timeout : Z)
  : M response :=
  fun w => (requests_get E url, emit [HttpGet url user_agent timeout] w).

(** The body of the [try] block of [get_compound_data]. *)
Definition request_and_parse (E : Env) (drug_name : string)
  : M (pyval * pyval) :=
  let request_url := BASE_URL_format drug_name in
  let user_agent := "StudentPortfolioProject/1.0" in
  response <- http_get E request_url user_agent 10 ;;
  if (status_code response =? 200)%Z then
    json_data <- lift (json response) ;;
    property_table <- lift (getitem_key json_data "PropertyTable") ;;
    properties_list <- lift (getitem_key property_table "Properties") ;;
    first_result <- lift (getitem_0 properties_list) ;;
    smiles_string <- lift (dict_get first_result "IsomericSMILES") ;;
    smiles_string <-
      (if negb (truthy smiles_string)
       then lift (dict_get first_result "CanonicalSMILES")
       else ret smiles_string) ;;
    smiles_string <-
      (if negb (truthy smiles_string)
       then lift (dict_get first_result "SMILES")
       else ret smiles_string) ;;
    molecular_weight <- lift (dict_get first_result "MolecularWeight") ;;
    print (MsgFoundMW molecular_weight) ;;
    ret (smiles_string, molecular_weight)
  else
    print (MsgStatusError (status_code response)) ;;
    ret (PNone, PNone).

Definition get_compound_data (E : Env) (drug_name : string)
  : M (pyval * pyval) :=
  print (MsgProcessing drug_name) ;;
  print (MsgConnecting drug_name) ;;
  try_except
    (request_and_parse E drug_name)
    (fun error_message =>
       print (MsgCriticalError error_message) ;;
       ret (PNone, PNone)).

Definition calculate_logp (E : Env) (smiles_string : pyval) : M Q :=
  if is_none smiles_string then ret 0%Q
  else
    returned <-
      try_except
        (molecule <- lift (MolFromSmiles E smiles_string) ;;
         match molecule with
         | Some mol =>
             log_p_value <- lift (MolLogP E mol) ;;
             ret (Some (py_round log_p_value 4))
         | None => ret None
         end)
        (fun _ => print MsgLogPError ;; ret None) ;;
    match returned with
    | Some value => ret value
    | None => ret 0%Q
    end.

(** [random.uniform(a, b)] is [a + (b - a) * random.random()]. *)
Definition random_uniform (E : Env) (a b : Q) : M Q :=
  fun w =>
    (Ok (a + (b - a) * random_random E (rng_pos w))%Q,
     set_rng_pos (S (rng_pos w)) w).

Definition run_docking_simulation (E : Env) (drug_type : string) : M Q :=
  random_score <- random_uniform E (-6) (-10) ;;
  final_score <-
    (if String.eqb drug_type "Synthetic"
     then
       bonus <- random_uniform E 1 2 ;;
       ret (random_score - bonus)%Q
     else ret random_score) ;;
  ret (py_round final_score 2).

(** [DROP TABLE IF EXISTS] followed by [CREATE TABLE]. *)
Definition create_database : M unit :=
  print MsgSetupDb ;;
  fun w => (Ok tt, set_db (Some []) w).

(** Whether the bytes hold a lone surrogate: byte ED followed by a byte
    of A0..BF (in well-formed UTF-8, ED is followed by 80..9F). *)
Fixpoint has_lone_surrogate (s : string) : bool :=
  match s with
  | String a (String b _ as rest) =>
      (Nat.eqb (Ascii.nat_of_ascii a) 237
       && Nat.leb 160 (Ascii.nat_of_ascii b) && Nat.leb (Ascii.nat_of_ascii b) 191)
      || has_lone_surrogate rest
  | _ => false
  end.

(** Binding a Python value to a [?] placeholder.  A NaN is bound as
    NULL; a [str] is encoded as UTF-8, which fails on a lone surrogate;
    an [int] must fit 64 bits; lists and dicts are not supported. *)
Definition sqlite_bind (v : pyval) : res sqlval :=
  match v with
  | PNone => Ok SNull
  | PBool b => Ok (SInteger (if b then 1 else 0))
  | PInt n =>
      if ((- 2 ^ 63 <=? n) && (n <? 2 ^ 63))%Z then Ok (SInteger n)
      else Raise OverflowError
  | PFloat q => Ok (SReal q)
  | PNaN => Ok SNull
  | PInf negative => Ok (SRealInf negative)
  | PStr s =>
      if has_lone_surrogate s then Raise UnicodeEncodeError
      else Ok (SText s)
  | PList _ | PDict _ => Raise ProgrammingError
  end.

(** What a column of the given affinity keeps of a bound value. *)
Definition apply_affinity (E : Env) (a : affinity) (v : sqlval) : sqlval :=
  match a, v with
  | TEXT, SInteger n => SText (text_of_integer E n)
  | TEXT, SReal q => SText (text_of_real E q)
  | TEXT, SRealInf negative => SText (text_of_infinity E negative)
  | REAL, SInteger n => SReal (inject_Z n)
  | REAL, SText s =>
      match numeric_of_text E s with
      | Some x => sql_of_real x
      | None => SText s
      end
  | _, _ => v
  end.

Definition store_cell (E : Env) (a : affinity) (v : pyval) : res sqlval :=
  match sqlite_bind v with
  | Ok c => Ok (apply_affinity E a c)
  | Raise e => Raise e
  end.

(** The table as a statement sees it: a missing table is an
    [OperationalError]. *)
Definition table_rows : M (list row) :=
  fun w =>
    match db w with
    | Some rows => (Ok rows, w)
    | None => (Raise OperationalError, w)
    end.

Definition save_result_to_db (E : Env)
  (name drug_type smiles mw logp score : pyval) : M unit :=
  rows <- table_rows ;;
  c_name <- lift (store_cell E TEXT name) ;;
  c_type <- lift (store_cell E TEXT drug_type) ;;
  c_smiles <- lift (store_cell E TEXT smiles) ;;
  c_mw <- lift (store_cell E REAL mw) ;;
  c_logp <- lift (store_cell E REAL logp) ;;
  c_score <- lift (store_cell E REAL score) ;;
  let new_row :=
    {| col_name := c_name; col_type := c_type; col_smiles := c_smiles;
       col_mw := c_mw; col_logp := c_logp; col_score := c_score |} in
  fun w => (Ok tt, set_db (Some (rows ++ [new_row])%list) w).

Definition csv_header : csv_record :=
  [SText "Name"; SText "Type"; SText "SMILES"; SText "Molecular Weight";
   SText "LogP"; SText "Score"].

(** The file is written whole, or (when the SELECT fails) not opened at
    all; the file system is taken to accept the write. *)
Definition export_to_csv : M unit :=
  print MsgExporting ;;
  rows <- table_rows ;;
  let all_rows := map row_tuple rows in
  (fun w => (Ok tt, set_csv_file (Some (csv_header :: all_rows)) w)) ;;
  print MsgExportSuccess.

(** ** Section 3 of [main.py]: the main loop *)

Definition all_items_to_process : list (string * string) :=
  (map (fun name => (name, "Natural")) NATURAL_SUBSTRATES
   ++ map (fun name => (name, "Synthetic")) SYNTHETIC_INHIBITORS)%list.

Definition process_item (E : Env) (current_drug : string * string) : M unit :=
  let drug_name := fst current_drug in
  let drug_type := snd current_drug in
  fetched <- get_compound_data E drug_name ;;
  let smiles_string := fst fetched in
  let mw := snd fetched in
  (if negb (is_none smiles_string) then
     log_p <- calculate_logp E smiles_string ;;
     affinity_score <- run_docking_simulation E drug_type ;;
     save_result_to_db E (PStr drug_name) (PStr drug_type) smiles_string mw
       (PFloat log_p) (PFloat affinity_score) ;;
     print (MsgStep3 affinity_score)
   else
     print (MsgSkipping drug_name)) ;;
  print MsgSeparator ;;
  time_sleep 1.

Definition main (E : Env) : M unit :=
  create_database ;;
  for_each all_items_to_process (process_item E) ;;
  export_to_csv ;;
  print MsgAllDone.

(** ** [plots.py] *)

Record PlotEnv := {
  DataFrame : Type;
  (** [pd.read_csv] on the file as it is on disk ([None]: no file). *)
  pd_read_csv : option (list csv_record) -> res DataFrame;
  (** The in-memory drawing of the four panels, which may raise. *)
  draw_panels : DataFrame -> res unit;
}.

Definition plt_savefig (output_file_dpi : Z) : M unit :=
  fun w => (Ok tt, set_png_file (Some (Figure output_file_dpi)) w).

Definition create_dashboard (P : PlotEnv) : M unit :=
  loaded <-
    try_except
      (df <- (fun w => (pd_read_csv P (csv_file w), w)) ;;
       print MsgDataLoaded ;;
       ret (Some df))
      (fun e => print (MsgLoadError e) ;; ret None) ;;
  match loaded with
  | None => ret tt
  | Some df =>
      lift (draw_panels P df) ;;
      plt_savefig 300 ;;
      print (MsgDashboardSaved "dashboard.png")
  end.

(** ** Derived notions used by the statements *)

(** A world with nothing on disk and nothing printed. *)
Definition blank_world : world :=
  {| db := None; csv_file := None; png_file := None; rng_pos := 0; out := [] |}.

(** What [get_compound_data] returns for a name, and what it emits. *)
Definition fetched (E : Env) (drug_name : string) : pyval * pyval :=
  match fst (get_compound_data E drug_name blank_world) with
  | Ok result => result
  | Raise _ => (PNone, PNone)
  end.

Definition fetch_events (E : Env) (drug_name : string) : list event :=
  out (snd (get_compound_data E drug_name blank_world)).

Definition is_http_get (ev : event) : bool :=
  match ev with HttpGet _ _ _ => true | _ => false end.

(** The items whose fetch yields an encoding that is not [None]. *)
Definition had_data (E : Env) (item : string * string) : bool :=
  negb (is_none (fst (fetched E (fst item)))).

Definition storable (v : pyval) : bool :=
  match sqlite_bind v with Ok _ => true | Raise _ => false end.

Definition row_matches (name drug_type : string) (r : row) : bool :=
  match col_name r, col_type r with
  | SText n, SText t => String.eqb n name && String.eqb t drug_type
  | _, _ => false
  end.

Definition row_named (name : string) (r : row) : bool :=
  match col_name r with
  | SText n => String.eqb n name
  | _ => false
  end.

Definition count_rows (p : row -> bool) (rows : list row) : nat :=
  length (filter (fun r => p r = true) rows).

(** The data rows of an exported file: everything after the header. *)
Definition data_rows (file : list csv_record) : list csv_record := tail file.


(** The reply has the expected nesting and its first result is the
    object [d]. *)
Definition reply_first_result (E : Env) (drug_name : string)
  (d : gmap string pyval) : Prop :=
  exists (r : response) (top table : gmap string pyval) (rest : list pyval),
    requests_get E (BASE_URL_format drug_name) = Ok r
    /\ status_code r = 200%Z
    /\ json r = Ok (PDict top)
    /\ top !! "PropertyTable" = Some (PDict table)
    /\ table !! "Properties" = Some (PList (PDict d :: rest)).

Definition screened (E : Env) (items : list (string * string))
  : list (string * string) :=
  filter (fun item => had_data E item = true) items.

(** The ways a fetch can fail. *)
Inductive fetch_failure (E : Env) (drug_name : string) : Prop :=
  | transport_error (e : exn) :
      requests_get E (BASE_URL_format drug_name) = Raise e ->
      fetch_failure E drug_name
  | non_success_reply (r : response) :
      requests_get E (BASE_URL_format drug_name) = Ok r ->
      status_code r <> 200%Z ->
      fetch_failure E drug_name
  | parse_failure (r : response) (e : exn) :
      requests_get E (BASE_URL_format drug_name) = Ok r ->
      json r = Raise e ->
      fetch_failure E drug_name
  | any_exception (w0 w1 : world) (e : exn) :
      request_and_parse E drug_name w0 = (Raise e, w1) ->
      fetch_failure E drug_name.

(** ** Sample environments, used to exercise the statements *)

Definition reply_with (first_result : pyval) : response :=
  {| status_code := 200;
     json := Ok (PDict {[ "PropertyTable" :=
                            PDict {[ "Properties" := PList [first_result] ]} ]}) |}.

Definition methotrexate_properties : pyval :=
  PDict {[ "CID" := PInt 126941;
           "MolecularWeight" := PStr "454.4";
           "IsomericSMILES" := PStr "CN(CC1=CN=C2C(=N1)C(=NC(=N2)N)N)C3=CC=C(C=C3)C(=O)O" ]}.

Definition half_in_unit_interval : (0 <= 1 # 2 < 1)%Q :=
  ltac:(split; [discriminate | reflexivity]).

(** Methotrexate is found, Folic Acid gets a 404, Pemetrexed gets a
    200 reply whose body is not JSON, every other request times out. *)
Definition sample_env : Env :=
  {| requests_get := fun url =>
       if String.eqb url (BASE_URL_format "Methotrexate")
       then Ok (reply_with methotrexate_properties)
       else if String.eqb url (BASE_URL_format "Folic Acid")
       then Ok {| status_code := 404; json := Raise JSONDecodeError |}
       else if String.eqb url (BASE_URL_format "Pemetrexed")
       then Ok {| status_code := 200; json := Raise JSONDecodeError |}
       else Raise (RequestException "timed out");
     Mol := string;
     MolFromSmiles := fun v =>
       match v with
       | PStr "" => Ok None
       | PStr s => Ok (Some s)
       | _ => Raise TypeError
       end;
     MolLogP := fun mol =>
       if String.eqb mol "C" then Raise (LibraryError "MolLogP")
       else Ok (- (5343 # 10000))%Q;
     random_random := fun n => (1 # 2)%Q;
     random_random_unit := fun n => half_in_unit_interval;
     text_of_integer := fun _ => "0";
     text_of_real := fun _ => "0.0";
     text_of_infinity := fun negative => if negative then "-Inf" else "Inf";
     numeric_of_text := fun s =>
       if String.eqb s "454.4" then Some (Finite (2272 # 5)) else None |}.


Definition sample_row : row :=
  {| col_name := SText "Methotrexate"; col_type := SText "Synthetic";
     col_smiles := SText "CN"; col_mw := SReal (2272 # 5);
     col_logp := SReal (- (5343 # 10000)); col_score := SReal (- (19 # 2)) |}.

Definition world_with_rows (rows : list row) : world :=
  {| db := Some rows; csv_file := None; png_file := None;
     rng_pos := 0; out := [] |}.

(** pandas cannot load a missing file. *)
Definition sample_plot_env : PlotEnv :=
  {| DataFrame := list csv_record;
     pd_read_csv := fun file =>
       match file with
       | Some records => Ok records
       | None => Raise FileNotFoundError
       end;
     draw_panels := fun _ => Ok tt |}.

(** ** Further derived notions *)

(** What [calculate_logp] returns for an encoding, and what it emits. *)
Definition logp_value (E : Env) (smiles_string : pyval) : Q :=
  match fst (calculate_logp E smiles_string blank_world) with
  | Ok value => value
  | Raise _ => 0%Q
  end.

Definition logp_events (E : Env) (smiles_string : pyval) : list event :=
  out (snd (calculate_logp E smiles_string blank_world)).

(** The score drawn for a category when [pos] samples have been used. *)
Definition score_at (E : Env) (drug_type : string) (pos : nat) : Q :=
  match fst (run_docking_simulation E drug_type (set_rng_pos pos blank_world)) with
  | Ok value => value
  | Raise _ => 0%Q
  end.

Definition samples_used (drug_type : string) : nat :=
  if String.eqb drug_type "Synthetic" then 2 else 1.

(** The generator behaves like [random.random()]. *)
Definition unit_samples (E : Env) : Prop :=
  forall n : nat, (0 <= random_random E n <= 1)%Q.

Definition is_sleep (ev : event) : bool :=
  match ev with Sleep _ => true | _ => false end.

(** The request [get_compound_data] sends for a name. *)
Definition request_for (drug_name : string) : event :=
  HttpGet (BASE_URL_format drug_name) "StudentPortfolioProject/1.0" 10.

(** Requests and pauses of a run over [items]: one of each per item. *)
Definition paced (items : list (string * string)) : list event :=
  flat_map (fun item => [request_for (fst item); Sleep 1]) items.

(** Where the six cells of the row stored for an item come from. *)
Definition stored_row (E : Env) (item : string * string) (pos : nat) (r : row)
  : Prop :=
  col_name r = SText (fst item)
  /\ col_type r = SText (snd item)
  /\ store_cell E TEXT (fst (fetched E (fst item))) = Ok (col_smiles r)
  /\ store_cell E REAL (snd (fetched E (fst item))) = Ok (col_mw r)
  /\ col_logp r = SReal (logp_value E (fst (fetched E (fst item))))
  /\ col_score r = SReal (score_at E (snd item) pos).

Definition is_paced (ev : event) : bool := is_http_get ev || is_sleep ev.

(** An item whose fetched pair the INSERT cannot bind. *)
Definition unstorable (E : Env) (item : string * string) : Prop :=
  had_data E item = true
  /\ (storable (fst (fetched E (fst item))) = false
      \/ storable (snd (fetched E (fst item))) = false).

(** The exceptions a value that cannot be bound raises. *)
Definition bind_error (e : exn) : Prop :=
  e = ProgrammingError \/ e = OverflowError \/ e = UnicodeEncodeError.

(** The error the first value that cannot be bound raises; the values
    of an INSERT are bound in order. *)
Fixpoint first_bind_error (values : list pyval) : option exn :=
  match values with
  | [] => None
  | v :: rest =>
      match sqlite_bind v with
      | Raise e => Some e
      | Ok _ => first_bind_error rest
      end
  end.

(** Two rows that agree on every column but the score. *)
Definition same_but_score (r1 r2 : row) : Prop :=
  col_name r1 = col_name r2 /\ col_type r1 = col_type r2
  /\ col_smiles r1 = col_smiles r2 /\ col_mw r1 = col_mw r2
  /\ col_logp r1 = col_logp r2.

(** ** Further sample environments *)

Definition with_requests (requests : string -> res response) : Env :=
  {| requests_get := requests;
     Mol := string;
     MolFromSmiles := MolFromSmiles sample_env;
     MolLogP := MolLogP sample_env;
     random_random := random_random sample_env;
     random_random_unit := random_random_unit sample_env;
     text_of_integer := text_of_integer sample_env;
     text_of_real := text_of_real sample_env;
     text_of_infinity := text_of_infinity sample_env;
     numeric_of_text := numeric_of_text sample_env |}.

(** A service that gives the mass as a JSON array. *)
Definition env_mass_as_list : Env :=
  with_requests (fun _ =>
    Ok (reply_with (PDict {[ "IsomericSMILES" := PStr "CCO";
                             "MolecularWeight" := PList [PFloat 46] ]}))).



Definition world_with_csv (records : list csv_record) : world :=
  {| db := None; csv_file := Some records; png_file := None;
     rng_pos := 0; out := [] |}.

(** A service whose encoding field is the JSON literal NaN, which
    [json.loads] accepts and reads as [float('nan')]. *)
Definition nan_encoding_properties : pyval :=
  PDict {[ "IsomericSMILES" := PNaN; "MolecularWeight" := PFloat 46 ]}.

Definition env_nan_encoding : Env :=
  with_requests (fun _ => Ok (reply_with nan_encoding_properties)).

(** A string holding the lone surrogate U+D800 (bytes ED A0 80), as the
    JSON escape \ud800 gives. *)
Definition lone_surrogate : string :=
  String (Ascii.ascii_of_nat 237)
    (String (Ascii.ascii_of_nat 160)
       (String (Ascii.ascii_of_nat 128) EmptyString)).

Definition third_in_unit_interval : (0 <= 1 # 3 < 1)%Q :=
  ltac:(split; [discriminate | reflexivity]).

(** A generator whose samples are all 1/3, and an RDKit whose
    descriptors have more than four fractional digits. *)
Definition env_digits : Env :=
  {| requests_get := requests_get sample_env;
     Mol := string;
     MolFromSmiles := MolFromSmiles sample_env;
     MolLogP := fun mol =>
       if String.eqb mol "CCCC" then Ok (123456789 # 100000000)%Q
       else if String.eqb mol "CO" then Ok (- (76543 # 100000))%Q
       else Ok (1 # 32)%Q;
     random_random := fun n => (1 # 3)%Q;
     random_random_unit := fun n => third_in_unit_interval;
     text_of_integer := text_of_integer sample_env;
     text_of_real := text_of_real sample_env;
     text_of_infinity := text_of_infinity sample_env;
     numeric_of_text := numeric_of_text sample_env |}.

(** * Proofs *)

Lemma emit_emit (a b : list event) (w : world) :
  emit b (emit a w) = emit (a ++ b)%list w.
Proof. unfold emit; simpl. now rewrite app_assoc. Qed.

Lemma emit_nil (w : world) : emit [] w = w.
Proof. destruct w; unfold emit; simpl. now rewrite app_nil_r. Qed.

(** Case analysis on every scrutinee the goal is stuck on. *)
Ltac case_split :=
  repeat (cbv beta iota;
          match goal with
          | |- context [match ?x with _ => _ end] =>
              lazymatch x with
              | context [match _ with _ => _ end] => fail
              | _ => destruct x eqn:?
              end
          end).

Ltac unfold_fetch :=
  cbv [get_compound_data request_and_parse try_except bind print http_get
       lift ret fst snd].

(** ** The fetch *)

Lemma request_and_parse_run (E : Env) (drug_name : string) (w : world) :
  request_and_parse E drug_name w
  = (fst (request_and_parse E drug_name blank_world),
     emit (out (snd (request_and_parse E drug_name blank_world))) w).
Proof.
  unfold_fetch. case_split; rewrite ?emit_emit; reflexivity.
Qed.

Lemma get_compound_data_run (E : Env) (drug_name : string) (w : world) :
  get_compound_data E drug_name w
  = (Ok (fetched E drug_name), emit (fetch_events E drug_name) w).
Proof.
  unfold fetched, fetch_events.
  unfold_fetch. case_split; rewrite ?emit_emit; reflexivity.
Qed.

Lemma fetch_events_one_request (E : Env) (drug_name : string) :
  length (filter (fun ev => is_http_get ev = true) (fetch_events E drug_name)) = 1%nat.
Proof.
  unfold fetch_events. unfold_fetch. case_split; reflexivity.
Qed.

Lemma fetched_of_attempt (E : Env) (drug_name : string) :
  fetched E drug_name
  = match fst (request_and_parse E drug_name blank_world) with
    | Ok result => result
    | Raise _ => (PNone, PNone)
    end.
Proof.
  unfold fetched, get_compound_data, try_except, bind, print.
  rewrite request_and_parse_run.
  destruct (fst (request_and_parse E drug_name blank_world)); reflexivity.
Qed.

Lemma fetch_failure_fetched (E : Env) (drug_name : string) :
  fetch_failure E drug_name -> fetched E drug_name = (PNone, PNone).
Proof.
  intros Hfail. rewrite fetched_of_attempt.
  destruct Hfail as [e He | r Hr Hs | r e Hr Hj | w0 w1 e Hraise].
  - unfold_fetch. rewrite He. reflexivity.
  - unfold_fetch. rewrite Hr. apply Z.eqb_neq in Hs. rewrite Hs. reflexivity.
  - unfold_fetch. rewrite Hr, Hj. destruct (status_code r =? 200)%Z; reflexivity.
  - rewrite request_and_parse_run in Hraise.
    injection Hraise as Hfst _. rewrite Hfst. reflexivity.
Qed.

(** A 200 reply whose body lacks the expected nesting (a missing key,
    an empty results list, a first result that is not an object) is a
    failure of the [any_exception] kind. *)
Lemma malformed_reply_fails (E : Env) (drug_name : string) (r : response)
  (j : pyval) (e : exn) :
  requests_get E (BASE_URL_format drug_name) = Ok r ->
  status_code r = 200%Z ->
  json r = Ok j ->
  (getitem_key j "PropertyTable" = Raise e
   \/ (exists pt, getitem_key j "PropertyTable" = Ok pt
                  /\ getitem_key pt "Properties" = Raise e)
   \/ (exists pt pl, getitem_key j "PropertyTable" = Ok pt
                     /\ getitem_key pt "Properties" = Ok pl
                     /\ getitem_0 pl = Raise e)
   \/ (exists pt pl fr, getitem_key j "PropertyTable" = Ok pt
                        /\ getitem_key pt "Properties" = Ok pl
                        /\ getitem_0 pl = Ok fr
                        /\ dict_get fr "IsomericSMILES" = Raise e)) ->
  fetch_failure E drug_name.
Proof.
  intros Hr Hs Hj Hbad.
  apply (any_exception E drug_name blank_world
           (emit [HttpGet (BASE_URL_format drug_name)
                    "StudentPortfolioProject/1.0" 10] blank_world) e).
  unfold_fetch. rewrite Hr, Hs, Hj. cbn [Z.eqb Pos.eqb].
  destruct Hbad as [H1 | [(pt & H1 & H2) | [(pt & pl & H1 & H2 & H3)
                                           | (pt & pl & fr & H1 & H2 & H3 & H4)]]].
  - rewrite H1. reflexivity.
  - rewrite H1, H2. reflexivity.
  - rewrite H1, H2, H3. reflexivity.
  - rewrite H1, H2, H3, H4. reflexivity.
Qed.

(** Claim C3.  Whenever the fetch fails (the transport raises, the
    reply is not a 200, the body does not parse, or anything at all
    raises inside the [try] block), [get_compound_data] returns normally
    with the pair [(None, None)].  It has sent exactly one request (no
    retry), and the world differs from the one it started in only by the
    events it emitted: the table, the files and the random generator are
    untouched. *)
Theorem fetch_failure_returns_null_pair (E : Env) (drug_name : string) :
  fetch_failure E drug_name ->
  forall w : world, exists evs : list event,
    get_compound_data E drug_name w = (Ok (PNone, PNone), emit evs w)
    /\ length (filter (fun ev => is_http_get ev = true) evs) = 1%nat.
Proof.
  intros Hfail w. exists (fetch_events E drug_name). split.
  - rewrite get_compound_data_run, (fetch_failure_fetched E drug_name Hfail).
    reflexivity.
  - apply fetch_events_one_request.
Qed.





(** ** The descriptor and the score *)

Lemma calculate_logp_total (E : Env) (v : pyval) (w : world) :
  exists (q : Q) (evs : list event), calculate_logp E v w = (Ok q, emit evs w).
Proof.
  cbv [calculate_logp try_except bind print lift ret].
  case_split;
    try (eexists; exists []; rewrite emit_nil; reflexivity);
    eexists; eexists; reflexivity.
Qed.

Local Open Scope Q_scope.

Lemma round_half_even_near (x : Q) :
  x - (1 # 2) <= inject_Z (round_half_even x) <= x + (1 # 2).
Proof.
  unfold round_half_even.
  pose proof (Qfloor_le x) as Hlo.
  pose proof (Qlt_floor x) as Hhi.
  rewrite inject_Z_plus in Hhi. change (inject_Z 1) with 1 in Hhi.
  destruct (Qcompare_spec (x - inject_Z (Qfloor x)) (1 # 2)) as [He|Hl|Hg].
  - destruct (Z.even (Qfloor x)); rewrite ?inject_Z_plus;
      change (inject_Z 1) with 1; split; lra.
  - split; lra.
  - rewrite inject_Z_plus. change (inject_Z 1) with 1. split; lra.
Qed.

Lemma round_half_even_between (a b : Z) (x : Q) :
  inject_Z a <= x <= inject_Z b ->
  (a <= round_half_even x <= b)%Z.
Proof.
  intros [Ha Hb].
  assert (Hfa : (a <= Qfloor x)%Z).
  { rewrite <- (Qfloor_Z a). now apply Qfloor_resp_le. }
  assert (Hfb : (Qfloor x <= b)%Z).
  { rewrite <- (Qfloor_Z b). now apply Qfloor_resp_le. }
  assert (Hup : 0 < x - inject_Z (Qfloor x) -> (Qfloor x + 1 <= b)%Z).
  { intros Hpos.
    assert (Hlt : inject_Z (Qfloor x) < inject_Z b) by lra.
    rewrite <- Zlt_Qlt in Hlt. lia. }
  unfold round_half_even.
  destruct (Qcompare_spec (x - inject_Z (Qfloor x)) (1 # 2)) as [He|Hl|Hg].
  - destruct (Z.even (Qfloor x)); [lia|].
    split; [lia|]. apply Hup. rewrite He. reflexivity.
  - lia.
  - split; [lia|]. apply Hup. lra.
Qed.

Lemma py_round_2_eq (x : Q) :
  py_round x 2 == inject_Z (round_half_even (x * 100)) / 100.
Proof.
  unfold py_round. cbn.  
  rewrite (Qmake_Qdiv _ 100). reflexivity.
Qed.

Lemma py_round_2_near (x : Q) :
  x - (1 # 200) <= py_round x 2 <= x + (1 # 200).
Proof.
  rewrite py_round_2_eq.
  pose proof (round_half_even_near (x * 100)) as [Hlo Hhi].
  split.
  - apply Qle_shift_div_l; [reflexivity|]. lra.
  - apply Qle_shift_div_r; [reflexivity|]. lra.
Qed.

Lemma py_round_2_between (a b : Z) (x : Q) :
  inject_Z a <= x <= inject_Z b ->
  inject_Z a <= py_round x 2 <= inject_Z b.
Proof.
  intros [Ha Hb].
  rewrite py_round_2_eq.
  destruct (round_half_even_between (a * 100) (b * 100) (x * 100)) as [Hlo Hhi].
  { rewrite !inject_Z_mult. change (inject_Z 100) with 100. split; lra. }
  rewrite Zle_Qle in Hlo, Hhi. rewrite inject_Z_mult in Hlo, Hhi.
  change (inject_Z 100) with 100 in Hlo, Hhi.
  split.
  - apply Qle_shift_div_l; [reflexivity|]. exact Hlo.
  - apply Qle_shift_div_r; [reflexivity|]. exact Hhi.
Qed.

Lemma py_round_4_eq (x : Q) :
  py_round x 4 == inject_Z (round_half_even (x * 10000)) / 10000.
Proof.
  unfold py_round. cbn. rewrite (Qmake_Qdiv _ 10000). reflexivity.
Qed.

Lemma py_round_4_near (x : Q) :
  x - (1 # 20000) <= py_round x 4 <= x + (1 # 20000).
Proof.
  rewrite py_round_4_eq.
  pose proof (round_half_even_near (x * 10000)) as [Hlo Hhi].
  split.
  - apply Qle_shift_div_l; [reflexivity|]. lra.
  - apply Qle_shift_div_r; [reflexivity|]. lra.
Qed.

Lemma round_half_even_integer (k : Z) (x : Q) :
  x == inject_Z k -> round_half_even x = k.
Proof.
  intros Hx.
  destruct (round_half_even_between k k x) as [Hlo Hhi]; [split; lra|].
  lia.
Qed.

(** Rounding leaves a value that has [ndigits] fractional digits as it
    is. *)
Lemma py_round_2_fixes (x : Q) (k : Z) : x == k # 100 -> py_round x 2 == x.
Proof.
  intros Hx. rewrite py_round_2_eq.
  rewrite (round_half_even_integer k).
  - rewrite Hx, (Qmake_Qdiv k 100). reflexivity.
  - rewrite Hx, (Qmake_Qdiv k 100). field.
Qed.

Lemma py_round_4_fixes (x : Q) (k : Z) : x == k # 10000 -> py_round x 4 == x.
Proof.
  intros Hx. rewrite py_round_4_eq.
  rewrite (round_half_even_integer k).
  - rewrite Hx, (Qmake_Qdiv k 10000). reflexivity.
  - rewrite Hx, (Qmake_Qdiv k 10000). field.
Qed.

(** The result depends on the nearest integer of the scaled value
    only. *)
Lemma py_round_2_same (x x' : Q) :
  round_half_even (x' * 100) = round_half_even (x * 100) ->
  py_round x' 2 = py_round x 2.
Proof.
  intros Hsame.
  change (py_round x' 2) with (Qmake (round_half_even (x' * 100)) 100).
  change (py_round x 2) with (Qmake (round_half_even (x * 100)) 100).
  now rewrite Hsame.
Qed.

Lemma py_round_4_same (x x' : Q) :
  round_half_even (x' * 10000) = round_half_even (x * 10000) ->
  py_round x' 4 = py_round x 4.
Proof.
  intros Hsame.
  change (py_round x' 4) with (Qmake (round_half_even (x' * 10000)) 10000).
  change (py_round x 4) with (Qmake (round_half_even (x * 10000)) 10000).
  now rewrite Hsame.
Qed.

(** Claim C6.  [calculate_logp] returns 0.0 at once for a null
    encoding.  For any other encoding it always returns normally; the
    result is 0.0 when [MolFromSmiles] yields no molecule, and also when
    [MolFromSmiles] or [MolLogP] raises (a diagnostic is printed and
    nothing propagates); when both succeed it is the descriptor [x]
    rounded to 4 fractional digits, nothing being printed.  The rounded
    value is less than one ten-thousandth away from [x]; it is [x]
    itself when [x] has four fractional digits already; and it is the
    same for all descriptors whose multiple of ten thousand has the
    same nearest integer, ties going to the even one. *)
Theorem calculate_logp_cases (E : Env) (w : world) :
  calculate_logp E PNone w = (Ok 0%Q, w)
  /\ forall v : pyval, is_none v = false ->
       (exists (q : Q) (evs : list event),
           calculate_logp E v w = (Ok q, emit evs w))
       /\ (MolFromSmiles E v = Ok None -> calculate_logp E v w = (Ok 0%Q, w))
       /\ (forall e : exn, MolFromSmiles E v = Raise e ->
             calculate_logp E v w = (Ok 0%Q, emit [Print MsgLogPError] w))
       /\ (forall (mol : Mol E) (e : exn),
             MolFromSmiles E v = Ok (Some mol) -> MolLogP E mol = Raise e ->
             calculate_logp E v w = (Ok 0%Q, emit [Print MsgLogPError] w))
       /\ (forall (mol : Mol E) (x : Q),
             MolFromSmiles E v = Ok (Some mol) -> MolLogP E mol = Ok x ->
             calculate_logp E v w = (Ok (py_round x 4), w)
             /\ x - (1 # 10000) < py_round x 4 < x + (1 # 10000)
             /\ (forall k : Z, x == k # 10000 -> py_round x 4 == x)
             /\ (forall x' : Q,
                   round_half_even (x' * 10000) = round_half_even (x * 10000) ->
                   py_round x' 4 = py_round x 4)).
Proof.
  split; [reflexivity|].
  intros v Hv. split; [apply calculate_logp_total|].
  cbv [calculate_logp try_except bind print lift ret]. rewrite Hv.
  split; [|split; [|split]].
  - intros ->. reflexivity.
  - intros e ->. reflexivity.
  - intros mol e -> ->. reflexivity.
  - intros mol x -> ->. split; [reflexivity|].
    pose proof (py_round_4_near x) as [Hlo Hhi].
    split; [split; lra|]. split; [apply py_round_4_fixes|].
    intros x'. apply py_round_4_same.
Qed.

(** Claim C5.  For every base draw in [-10, -6] and bonus draw in
    [1, 2], the score for "Synthetic" is the difference rounded to 2
    fractional digits and lies in [-12, -6], the score for "Natural" is
    the base draw rounded and lies in [-10, -6], and the adjusted score
    is strictly below both the base draw and the unadjusted score. *)
Theorem score_within_ranges (E : Env) (w w1 w2 : world) (base bonus : Q) :
  random_uniform E (-6) (-10) w = (Ok base, w1) ->
  random_uniform E 1 2 w1 = (Ok bonus, w2) ->
  -10 <= base <= -6 ->
  1 <= bonus <= 2 ->
  exists synthetic natural : Q,
    run_docking_simulation E "Synthetic" w = (Ok synthetic, w2)
    /\ run_docking_simulation E "Natural" w = (Ok natural, w1)
    /\ synthetic = py_round (base - bonus) 2
    /\ natural = py_round base 2
    /\ -12 <= synthetic <= -6
    /\ -10 <= natural <= -6
    /\ synthetic < base
    /\ synthetic < natural.
Proof.
  intros Hbase Hbonus Hb Hc.
  exists (py_round (base - bonus) 2), (py_round base 2).
  pose proof (py_round_2_near (base - bonus)) as [_ Hs].
  pose proof (py_round_2_near base) as [Hn _].
  pose proof (py_round_2_between (-12) (-6) (base - bonus)) as Hsb.
  pose proof (py_round_2_between (-10) (-6) base) as Hnb.
  change (inject_Z (-12)) with (-12) in Hsb.
  change (inject_Z (-10)) with (-10) in Hnb.
  change (inject_Z (-6)) with (-6) in Hsb, Hnb.
  repeat split; try (apply Hsb; lra); try (apply Hnb; lra); try lra.
  - unfold run_docking_simulation, bind. rewrite Hbase.
    change (String.eqb "Synthetic" "Synthetic") with true. cbv beta iota.
    rewrite Hbonus. reflexivity.
  - unfold run_docking_simulation, bind. rewrite Hbase. reflexivity.
Qed.

(** Claim C10.  For every label other than the exact string
    "Synthetic", one sample is drawn, no adjustment is made, and the
    score is the base draw rounded to 2 fractional digits: the outcome
    is the one for "Natural".  The base draw lies in [-10, -6] and so
    does the score.  The score is less than one hundredth away from the
    base draw; it is the base draw itself when that has two fractional
    digits already; and it is the same for all values whose multiple of
    a hundred has the same nearest integer, ties going to the even
    one. *)
Theorem other_categories_score_like_natural (E : Env) (drug_type : string)
  (w : world) :
  drug_type <> "Synthetic"%string ->
  exists base : Q,
    random_uniform E (-6) (-10) w = (Ok base, set_rng_pos (S (rng_pos w)) w)
    /\ run_docking_simulation E drug_type w
       = (Ok (py_round base 2), set_rng_pos (S (rng_pos w)) w)
    /\ run_docking_simulation E drug_type w
       = run_docking_simulation E "Natural" w
    /\ -10 <= base <= -6
    /\ -10 <= py_round base 2 <= -6
    /\ base - (1 # 100) < py_round base 2 < base + (1 # 100)
    /\ (forall k : Z, base == k # 100 -> py_round base 2 == base)
    /\ (forall x' : Q,
          round_half_even (x' * 100) = round_half_even (base * 100) ->
          py_round x' 2 = py_round base 2).
Proof.
  intros Hother.
  exists (-6 + (-10 - -6) * random_random E (rng_pos w)).
  assert (Hrun : forall label : string,
             label <> "Synthetic"%string ->
             run_docking_simulation E label w
             = (Ok (py_round (-6 + (-10 - -6) * random_random E (rng_pos w)) 2),
                set_rng_pos (S (rng_pos w)) w)).
  { intros label Hlabel. apply String.eqb_neq in Hlabel.
    unfold run_docking_simulation, bind, random_uniform. rewrite Hlabel.
    reflexivity. }
  pose proof (random_random_unit E (rng_pos w)) as [H0 H1].
  assert (Hrange : -10 <= -6 + (-10 - -6) * random_random E (rng_pos w) <= -6)
    by (split; lra).
  pose proof (py_round_2_near (-6 + (-10 - -6) * random_random E (rng_pos w)))
    as [Hlo Hhi].
  split; [reflexivity|]. split; [now apply Hrun|]. split.
  { rewrite (Hrun drug_type Hother). symmetry. now apply Hrun. }
  split; [exact Hrange|]. split.
  { apply (py_round_2_between (-10) (-6)). exact Hrange. }
  split; [split; lra|]. split; [apply py_round_2_fixes|].
  intros x'. apply py_round_2_same.
Qed.

Local Close Scope Q_scope.

(** ** The export and the dashboard *)

(** Claim C8.  If loading the exported table raises, whatever the
    exception, [create_dashboard] returns normally, its only effect is
    the printed error, and in particular the image file and the table
    file are as they were: no dashboard is written. *)
Theorem dashboard_load_failure (P : PlotEnv) (w : world) (e : exn) :
  pd_read_csv P (csv_file w) = Raise e ->
  create_dashboard P w = (Ok tt, emit [Print (MsgLoadError e)] w)
  /\ png_file (snd (create_dashboard P w)) = png_file w
  /\ csv_file (snd (create_dashboard P w)) = csv_file w.
Proof.
  intros Hload.
  assert (Hrun : create_dashboard P w = (Ok tt, emit [Print (MsgLoadError e)] w)).
  { cbv [create_dashboard try_except bind print ret]. rewrite Hload. reflexivity. }
  rewrite Hrun. repeat split.
Qed.

Lemma row_tuple_inj (r1 r2 : row) : row_tuple r1 = row_tuple r2 -> r1 = r2.
Proof.
  destruct r1, r2. unfold row_tuple. cbn. intros H.
  injection H as -> -> -> -> -> ->. reflexivity.
Qed.

Lemma export_to_csv_run (w : world) (rows : list row) :
  db w = Some rows ->
  export_to_csv w
  = (Ok tt,
     emit [Print MsgExportSuccess]
       (set_csv_file (Some (csv_header :: map row_tuple rows))
          (emit [Print MsgExporting] w))).
Proof.
  intros Hdb. cbv [export_to_csv bind print table_rows].
  cbn [db emit]. rewrite Hdb. reflexivity.
Qed.

Lemma export_to_csv_ok (w w' : world) :
  export_to_csv w = (Ok tt, w') ->
  exists rows : list row,
    db w = Some rows /\ db w' = Some rows
    /\ csv_file w' = Some (csv_header :: map row_tuple rows).
Proof.
  destruct (db w) as [rows|] eqn:Hdb.
  - rewrite (export_to_csv_run w rows Hdb). intros [= <-].
    exists rows. cbn. auto.
  - cbv [export_to_csv bind print table_rows]. cbn [db emit].
    rewrite Hdb. discriminate.
Qed.

(** Claim C2.  In every state where the table exists, the export
    succeeds, leaves the table as it was, and writes after the header
    exactly one record per stored row: the i-th data record is the tuple
    of the i-th row (same values, columns in table order, insertion
    order), the counts agree, and different rows give different
    records. *)
Theorem export_round_trip (w : world) (rows : list row) :
  db w = Some rows ->
  exists (w' : world) (file : list csv_record),
    export_to_csv w = (Ok tt, w')
    /\ db w' = Some rows
    /\ csv_file w' = Some file
    /\ data_rows file = map row_tuple rows
    /\ length (data_rows file) = length rows
    /\ (forall (i : nat) (r : row),
          rows !! i = Some r -> data_rows file !! i = Some (row_tuple r))
    /\ (forall (i : nat) (record : csv_record),
          data_rows file !! i = Some record ->
          exists r : row, rows !! i = Some r /\ record = row_tuple r)
    /\ (forall r : row,
          row_tuple r = [col_name r; col_type r; col_smiles r; col_mw r;
                         col_logp r; col_score r])
    /\ (forall r1 r2 : row, row_tuple r1 = row_tuple r2 -> r1 = r2).
Proof.
  intros Hdb. eexists. exists (csv_header :: map row_tuple rows).
  split; [apply (export_to_csv_run w rows Hdb)|].
  cbn [db csv_file emit set_csv_file data_rows tail].
  repeat split; auto.
  - apply length_map.
  - intros i r Hi. rewrite list_lookup_fmap, Hi. reflexivity.
  - intros i record Hi. rewrite list_lookup_fmap in Hi.
    destruct (rows !! i) as [r|]; [|discriminate Hi].
    exists r. split; [reflexivity|]. now injection Hi as <-.
  - apply row_tuple_inj.
Qed.

(** ** The table and the main loop *)

Lemma store_cell_storable (E : Env) (a : affinity) (v : pyval) :
  storable v = true <-> exists c : sqlval, store_cell E a v = Ok c.
Proof.
  unfold storable, store_cell. destruct (sqlite_bind v).
  - split; eauto.
  - split; [discriminate|]. intros [c Hc]. discriminate Hc.
Qed.

Lemma store_cell_text (E : Env) (s : string) (c : sqlval) :
  store_cell E TEXT (PStr s) = Ok c -> c = SText s.
Proof.
  unfold store_cell. cbn [sqlite_bind].
  destruct (has_lone_surrogate s); [discriminate|].
  cbn. now intros [= <-].
Qed.

Lemma store_cell_null_iff (E : Env) (a : affinity) (v : pyval) (c : sqlval) :
  store_cell E a v = Ok c -> (c = SNull <-> v = PNone \/ v = PNaN).
Proof.
  unfold store_cell.
  destruct v as [|b|n|q| |negative|s|l|d]; cbn; try discriminate.
  - destruct a; intros [= <-]; tauto.
  - destruct a; intros [= <-]; (split; [discriminate|intros [H|H]; discriminate H]).
  - destruct ((- 2 ^ 63 <=? n)%Z && (n <? 2 ^ 63)%Z); cbn; [|discriminate].
    destruct a; intros [= <-]; (split; [discriminate|intros [H|H]; discriminate H]).
  - destruct a; intros [= <-]; (split; [discriminate|intros [H|H]; discriminate H]).
  - destruct a; intros [= <-]; tauto.
  - destruct a; intros [= <-]; (split; [discriminate|intros [H|H]; discriminate H]).
  - destruct (has_lone_surrogate s); [discriminate|].
    destruct a; cbn.
    + intros [= <-]; (split; [discriminate|intros [H|H]; discriminate H]).
    + destruct (numeric_of_text E s) as [[q|negative]|]; cbn; intros [= <-];
        (split; [discriminate|intros [H|H]; discriminate H]).
Qed.

Lemma sqlite_bind_error (v : pyval) (e : exn) :
  sqlite_bind v = Raise e ->
  (e = ProgrammingError
   /\ ((exists l, v = PList l) \/ exists d, v = PDict d))
  \/ (e = OverflowError
      /\ exists n : Z, v = PInt n /\ ~ (- 2 ^ 63 <= n < 2 ^ 63)%Z)
  \/ (e = UnicodeEncodeError
      /\ exists s : string, v = PStr s /\ has_lone_surrogate s = true).
Proof.
  destruct v as [|b|n|q| |negative|s|l|d]; cbn; try discriminate.
  - destruct ((- 2 ^ 63 <=? n)%Z && (n <? 2 ^ 63)%Z) eqn:Hn; [discriminate|].
    intros [= <-]. right; left. split; [reflexivity|]. exists n.
    split; [reflexivity|]. apply andb_false_iff in Hn. lia.
  - destruct (has_lone_surrogate s) eqn:Hs; [|discriminate].
    intros [= <-]. right; right. eauto.
  - intros [= <-]. left. eauto.
  - intros [= <-]. left. eauto.
Qed.

Lemma store_cell_error (E : Env) (a : affinity) (v : pyval) (e : exn) :
  store_cell E a v = Raise e -> storable v = false /\ bind_error e.
Proof.
  unfold store_cell, storable, bind_error.
  destruct (sqlite_bind v) as [c|e'] eqn:Hb; [discriminate|].
  intros [= <-]. split; [reflexivity|].
  destruct (sqlite_bind_error v e' Hb) as [[-> _]|[[-> _]|[-> _]]]; auto.
Qed.

Lemma registry_names_storable (item : string * string) :
  In item all_items_to_process ->
  storable (PStr (fst item)) = true /\ storable (PStr (snd item)) = true.
Proof.
  intros Hin. cbn in Hin.
  repeat (destruct Hin as [<-|Hin]; [split; reflexivity|]).
  destruct Hin.
Qed.

Lemma calculate_logp_run (E : Env) (v : pyval) (w : world) :
  calculate_logp E v w = (Ok (logp_value E v), emit (logp_events E v) w).
Proof.
  unfold logp_value, logp_events.
  cbv [calculate_logp try_except bind print lift ret fst snd].
  case_split; rewrite ?emit_emit, ?emit_nil; try reflexivity.
Qed.

Lemma run_docking_simulation_run (E : Env) (drug_type : string) (w : world) :
  run_docking_simulation E drug_type w
  = (Ok (score_at E drug_type (rng_pos w)),
     set_rng_pos (rng_pos w + samples_used drug_type) w).
Proof.
  unfold score_at, samples_used.
  cbv [run_docking_simulation bind random_uniform ret fst].
  destruct (String.eqb drug_type "Synthetic"); cbn;
    unfold set_rng_pos; cbn; repeat f_equal; lia.
Qed.

Lemma logp_events_not_paced (E : Env) (v : pyval) :
  filter (fun ev => is_paced ev = true) (logp_events E v) = [].
Proof.
  unfold logp_events.
  cbv [calculate_logp try_except bind print lift ret fst snd].
  case_split; reflexivity.
Qed.

Lemma fetch_events_paced (E : Env) (drug_name : string) :
  filter (fun ev => is_paced ev = true) (fetch_events E drug_name)
  = [request_for drug_name].
Proof.
  unfold fetch_events, request_for. unfold_fetch. case_split; reflexivity.
Qed.

Lemma process_item_full (E : Env) (item : string * string) (w : world)
  (rows : list row) :
  db w = Some rows ->
  exists (result : res unit) (w' : world) (evs : list event),
    process_item E item w = (result, w')
    /\ csv_file w' = csv_file w
    /\ png_file w' = png_file w
    /\ out w' = (out w ++ evs)%list
    /\ (result = Ok tt ->
        filter (fun ev => is_paced ev = true) evs
        = [request_for (fst item); Sleep 1]
        /\ exists new : list row,
             db w' = Some (rows ++ new)%list
             /\ if had_data E item
                then rng_pos w' = (rng_pos w + samples_used (snd item))%nat
                     /\ exists r : row,
                          new = [r] /\ stored_row E item (rng_pos w) r
                else rng_pos w' = rng_pos w /\ new = [])
    /\ (forall e : exn,
          result = Raise e ->
          db w' = Some rows
          /\ bind_error e
          /\ (storable (PStr (fst item)) = true ->
              storable (PStr (snd item)) = true ->
              unstorable E item)).
Proof.
  intros Hdb. unfold unstorable, stored_row, had_data.
  destruct item as [drug_name drug_type].
  unfold process_item. cbn [fst snd]. unfold bind at 1.
  rewrite get_compound_data_run.
  destruct (fetched E drug_name) as [smiles mw]. cbn [fst snd].
  destruct (is_none smiles) eqn:Hnone; cbn [negb].
  - cbv [bind print time_sleep]. eexists; eexists; eexists.
    split; [reflexivity|]. cbn [csv_file png_file out db rng_pos emit].
    split; [reflexivity|]. split; [reflexivity|].
    split; [rewrite <- !app_assoc; reflexivity|].
    split; [|discriminate].
    intros _. split.
    + rewrite !filter_app, fetch_events_paced. reflexivity.
    + exists []. rewrite app_nil_r. auto.
  - unfold bind at 1. unfold bind at 1. rewrite calculate_logp_run.
    unfold bind at 1. rewrite run_docking_simulation_run.
    cbv [save_result_to_db bind table_rows lift print time_sleep].
    cbn [db emit set_rng_pos rng_pos]. rewrite Hdb.
    change (store_cell E REAL (PFloat ?q)) with (Ok (SReal q)).
    cbv beta iota.
    destruct (store_cell E TEXT (PStr drug_name)) as [c_name|e0] eqn:Hn.
    2: { eexists; eexists; eexists. split; [reflexivity|]. cbn.
         split; [reflexivity|]. split; [reflexivity|].
         split; [rewrite <- !app_assoc; reflexivity|].
         split; [discriminate|]. intros e [= <-].
         apply store_cell_error in Hn as [Hn He].
         split; [exact Hdb|]. split; [exact He|]. congruence. }
    destruct (store_cell E TEXT (PStr drug_type)) as [c_type|e0] eqn:Ht.
    2: { eexists; eexists; eexists. split; [reflexivity|]. cbn.
         split; [reflexivity|]. split; [reflexivity|].
         split; [rewrite <- !app_assoc; reflexivity|].
         split; [discriminate|]. intros e [= <-].
         apply store_cell_error in Ht as [Ht He].
         split; [exact Hdb|]. split; [exact He|]. congruence. }
    apply store_cell_text in Hn as ->. apply store_cell_text in Ht as ->.
    destruct (store_cell E TEXT smiles) as [c_smiles|e1] eqn:Hs.
    2: { eexists; eexists; eexists. split; [reflexivity|]. cbn.
         split; [reflexivity|]. split; [reflexivity|].
         split; [rewrite <- !app_assoc; reflexivity|].
         split; [discriminate|]. intros e [= <-].
         apply store_cell_error in Hs as [Hs He]. auto. }
    destruct (store_cell E REAL mw) as [c_mw|e2] eqn:Hm.
    2: { eexists; eexists; eexists. split; [reflexivity|]. cbn.
         split; [reflexivity|]. split; [reflexivity|].
         split; [rewrite <- !app_assoc; reflexivity|].
         split; [discriminate|]. intros e [= <-].
         apply store_cell_error in Hm as [Hm He]. auto. }
    eexists; eexists; eexists. split; [reflexivity|]. cbn.
    split; [reflexivity|]. split; [reflexivity|].
    split; [rewrite <- !app_assoc; reflexivity|].
    split; [|discriminate].
    intros _. split.
    + rewrite !filter_app, fetch_events_paced, logp_events_not_paced.
      reflexivity.
    + eexists. split; [reflexivity|]. split; [reflexivity|].
      eexists. split; [reflexivity|]. cbn. repeat split.
Qed.

Lemma main_loop_full (E : Env) (items : list (string * string)) :
  forall (w : world) (rows : list row),
    db w = Some rows ->
    exists (result : res unit) (w' : world) (evs : list event)
           (new : list row),
      for_each items (process_item E) w = (result, w')
      /\ csv_file w' = csv_file w
      /\ png_file w' = png_file w
      /\ out w' = (out w ++ evs)%list
      /\ db w' = Some (rows ++ new)%list
      /\ (result = Ok tt ->
          filter (fun ev => is_paced ev = true) evs = paced items
          /\ Forall2 (fun item r => exists pos : nat, stored_row E item pos r)
               (screened E items) new)
      /\ (forall e : exn,
            result = Raise e ->
            bind_error e
            /\ exists (done : list (string * string))
                      (failing : string * string)
                      (rest : list (string * string)),
                 items = (done ++ failing :: rest)%list
                 /\ Forall2
                      (fun item r => exists pos : nat, stored_row E item pos r)
                      (screened E done) new
                 /\ (storable (PStr (fst failing)) = true ->
                     storable (PStr (snd failing)) = true ->
                     unstorable E failing)).
Proof.
  induction items as [|item items IH]; intros w rows Hdb.
  - exists (Ok tt), w, [], []. cbn. rewrite !app_nil_r.
    repeat split; auto; discriminate.
  - destruct (process_item_full E item w rows Hdb)
      as (r1 & w1 & evs1 & Hrun & Hcsv & Hpng & Hout & Hok & Hfail).
    cbn [for_each]. unfold bind at 1. rewrite Hrun.
    destruct r1 as [[]|e].
    + destruct (Hok eq_refl) as (Hpace & new1 & Hdb1 & Hnew).
      destruct (IH w1 _ Hdb1)
        as (r2 & w2 & evs2 & new2 & Hrun2 & Hcsv2 & Hpng2 & Hout2 & Hdb2
            & Hok2 & Hfail2).
      assert (Hcons : forall (L : list (string * string)) (k : list row),
                 Forall2 (fun it r => exists pos : nat, stored_row E it pos r)
                   (screened E L) k ->
                 Forall2 (fun it r => exists pos : nat, stored_row E it pos r)
                   (screened E (item :: L)) (new1 ++ k)%list).
      { intros L k Hall. unfold screened in *. rewrite filter_cons.
        destruct (decide (had_data E item = true)) as [Hd|Hd].
        - rewrite Hd in Hnew. destruct Hnew as (_ & r & -> & Hrow).
          constructor; [eauto|exact Hall].
        - apply not_true_is_false in Hd. rewrite Hd in Hnew.
          destruct Hnew as (_ & ->). exact Hall. }
      exists r2, w2, (evs1 ++ evs2)%list, (new1 ++ new2)%list.
      split; [exact Hrun2|]. split; [congruence|]. split; [congruence|].
      split; [rewrite Hout2, Hout, app_assoc; reflexivity|].
      split; [rewrite Hdb2, app_assoc; reflexivity|].
      split.
      * intros Hr2. destruct (Hok2 Hr2) as (Hpace2 & Hall2). split.
        -- rewrite filter_app, Hpace, Hpace2. reflexivity.
        -- now apply Hcons.
      * intros e He.
        destruct (Hfail2 e He)
          as (Hkind & done & failing & rest & -> & Hall & Hbad).
        split; [exact Hkind|].
        exists (item :: done), failing, rest.
        split; [reflexivity|]. split; [now apply Hcons|exact Hbad].
    + destruct (Hfail e eq_refl) as (Hdb1 & Hkind & Hbad).
      exists (Raise e), w1, evs1, []. rewrite app_nil_r.
      split; [reflexivity|]. split; [exact Hcsv|]. split; [exact Hpng|].
      split; [exact Hout|]. split; [exact Hdb1|]. split; [discriminate|].
      intros e' [= <-]. split; [exact Hkind|].
      exists [], item, items. split; [reflexivity|].
      split; [constructor|exact Hbad].
Qed.

Lemma main_full (E : Env) (w : world) :
  exists (result : res unit) (w' : world) (evs : list event)
         (rows : list row),
    main E w = (result, w')
    /\ png_file w' = png_file w
    /\ out w' = (out w ++ evs)%list
    /\ db w' = Some rows
    /\ (result = Ok tt ->
        csv_file w' = Some (csv_header :: map row_tuple rows)
        /\ filter (fun ev => is_paced ev = true) evs
           = paced all_items_to_process
        /\ Forall2 (fun item r => exists pos : nat, stored_row E item pos r)
             (screened E all_items_to_process) rows)
    /\ (forall e : exn,
          result = Raise e ->
          csv_file w' = csv_file w
          /\ bind_error e
          /\ exists (done : list (string * string))
                    (failing : string * string)
                    (rest : list (string * string)),
               all_items_to_process = (done ++ failing :: rest)%list
               /\ unstorable E failing
               /\ Forall2
                    (fun item r => exists pos : nat, stored_row E item pos r)
                    (screened E done) rows).
Proof.
  unfold main, create_database. unfold bind at 1. unfold bind at 1.
  unfold print at 1.
  set (w0 := set_db (Some []) (emit [Print MsgSetupDb] w)).
  destruct (main_loop_full E all_items_to_process w0 [] eq_refl)
    as (r & w1 & evs & rows & Hrun & Hcsv & Hpng & Hout & Hdb & Hok & Hfail).
  cbn [app] in Hdb. unfold bind at 1. rewrite Hrun.
  destruct r as [[]|e].
  - destruct (Hok eq_refl) as (Hpace & Hall).
    unfold bind at 1. rewrite (export_to_csv_run w1 rows Hdb).
    eexists; eexists;
      exists ([Print MsgSetupDb] ++ evs
              ++ [Print MsgExporting; Print MsgExportSuccess;
                  Print MsgAllDone])%list, rows.
    split; [reflexivity|]. cbn [png_file out db csv_file emit set_csv_file].
    split; [exact Hpng|].
    split; [rewrite Hout; subst w0; cbn; rewrite <- !app_assoc; reflexivity|].
    split; [exact Hdb|].
    split; [|discriminate]. intros _.
    split; [reflexivity|]. split; [|exact Hall].
    rewrite !filter_app, Hpace. cbn. rewrite ?app_nil_r. reflexivity.
  - destruct (Hfail e eq_refl)
      as (Hkind & done & failing & rest & Hsplit & Hall & Hbad).
    exists (Raise e), w1, ([Print MsgSetupDb] ++ evs)%list, rows.
    split; [reflexivity|]. split; [exact Hpng|].
    split; [rewrite Hout; subst w0; cbn; rewrite <- !app_assoc; reflexivity|].
    split; [exact Hdb|]. split; [discriminate|].
    intros e' [= <-]. split; [exact Hcsv|]. split; [exact Hkind|].
    exists done, failing, rest. split; [exact Hsplit|]. split; [|exact Hall].
    destruct (registry_names_storable failing) as [Hn Ht]; [|now apply Hbad].
    rewrite Hsplit. apply in_or_app. right. now left.
Qed.

Lemma Forall2_left_witness {A B} (P : A -> B -> Prop) (l : list A)
  (k : list B) (x : A) :
  Forall2 P l k -> x ∈ l -> exists y, y ∈ k /\ P x y.
Proof.
  induction 1 as [|a b l k Hab _ IH]; intros Hin.
  - inversion Hin.
  - apply elem_of_cons in Hin as [->|Hin].
    + exists b. split; [now left|exact Hab].
    + destruct (IH Hin) as (y & Hy & Hxy). exists y. split; [now right|exact Hxy].
Qed.

Lemma Forall2_right_witness {A B} (P : A -> B -> Prop) (l : list A)
  (k : list B) (y : B) :
  Forall2 P l k -> y ∈ k -> exists x, x ∈ l /\ P x y.
Proof.
  induction 1 as [|a b l k Hab _ IH]; intros Hin.
  - inversion Hin.
  - apply elem_of_cons in Hin as [->|Hin].
    + exists a. split; [now left|exact Hab].
    + destruct (IH Hin) as (x & Hx & Hxy). exists x. split; [now right|exact Hxy].
Qed.

Lemma stored_row_storable (E : Env) (item : string * string) (pos : nat)
  (r : row) :
  stored_row E item pos r ->
  storable (fst (fetched E (fst item))) = true
  /\ storable (snd (fetched E (fst item))) = true.
Proof.
  intros (_ & _ & Hs & Hm & _). split.
  - apply (store_cell_storable E TEXT). eauto.
  - apply (store_cell_storable E REAL). eauto.
Qed.

Lemma count_rows_matches (E : Env) (L : list (string * string))
  (rows : list row) (name drug_type : string) :
  Forall2 (fun item r => exists pos : nat, stored_row E item pos r) L rows ->
  count_rows (row_matches name drug_type) rows
  = length (filter (fun item => item = (name, drug_type)) L).
Proof.
  unfold count_rows.
  induction 1 as [|item r L rows (pos & Hn & Ht & _) _ IH]; [reflexivity|].
  rewrite !filter_cons.
  assert (Hiff : row_matches name drug_type r = true <-> item = (name, drug_type)).
  { unfold row_matches. rewrite Hn, Ht. destruct item as [a b]. cbn [fst snd].
    rewrite andb_true_iff, !String.eqb_eq. split.
    - intros [-> ->]. reflexivity.
    - intros [= -> ->]. auto. }
  destruct (decide (row_matches name drug_type r = true)) as [Hm|Hm],
           (decide (item = (name, drug_type))) as [Hi|Hi];
    cbn [length]; try (rewrite IH; reflexivity).
  - exfalso. apply Hi, Hiff, Hm.
  - exfalso. apply Hm, Hiff, Hi.
Qed.

Lemma count_rows_named (E : Env) (L : list (string * string))
  (rows : list row) (name : string) :
  Forall2 (fun item r => exists pos : nat, stored_row E item pos r) L rows ->
  count_rows (row_named name) rows
  = length (filter (fun item => fst item = name) L).
Proof.
  unfold count_rows.
  induction 1 as [|item r L rows (pos & Hn & _) _ IH]; [reflexivity|].
  rewrite !filter_cons.
  assert (Hiff : row_named name r = true <-> fst item = name).
  { unfold row_named. rewrite Hn. apply String.eqb_eq. }
  destruct (decide (row_named name r = true)) as [Hm|Hm],
           (decide (fst item = name)) as [Hi|Hi];
    cbn [length]; try (rewrite IH; reflexivity).
  - exfalso. apply Hi, Hiff, Hm.
  - exfalso. apply Hm, Hiff, Hi.
Qed.

Lemma length_filter_none {A} (P : A -> Prop) `{forall x, Decision (P x)}
  (l : list A) :
  (forall x, x ∈ l -> ~ P x) -> length (filter P l) = 0%nat.
Proof.
  induction l as [|y l IH]; intros Hall; [reflexivity|].
  rewrite filter_cons_False.
  - apply IH. intros x Hx. apply Hall. now right.
  - apply Hall. now left.
Qed.

Lemma count_in_NoDup {A} `{EqDecision A} (x : A) (l : list A) :
  NoDup l -> x ∈ l -> length (filter (fun y => y = x) l) = 1%nat.
Proof.
  induction 1 as [|y l Hy Hnd IH]; intros Hin.
  - inversion Hin.
  - rewrite filter_cons. destruct (decide (y = x)) as [->|Hne].
    + cbn [length]. f_equal. apply length_filter_none.
      intros z Hz ->. contradiction.
    + apply IH. apply elem_of_cons in Hin as [->|Hin]; [contradiction|exact Hin].
Qed.

Lemma all_items_NoDup : NoDup all_items_to_process.
Proof. apply (bool_decide_unpack _). vm_compute. exact I. Qed.

Lemma screened_elem (E : Env) (items : list (string * string))
  (item : string * string) :
  item ∈ screened E items <-> had_data E item = true /\ item ∈ items.
Proof.
  unfold screened.
  apply (list_elem_of_filter (fun it => had_data E it = true)).
Qed.

Lemma main_completed (E : Env) (w w' : world) :
  main E w = (Ok tt, w') ->
  exists rows : list row,
    db w' = Some rows
    /\ csv_file w' = Some (csv_header :: map row_tuple rows)
    /\ Forall2 (fun item r => exists pos : nat, stored_row E item pos r)
         (screened E all_items_to_process) rows.
Proof.
  intros Hmain.
  destruct (main_full E w)
    as (result & w1 & evs & rows & Hrun & _ & _ & Hdb & Hok & _).
  rewrite Hrun in Hmain. injection Hmain as -> ->.
  destruct (Hok eq_refl) as (Hcsv & _ & Hall).
  exists rows. auto.
Qed.

(** Claim C1 as stated does not hold: a 200 reply whose IsomericSMILES
    field is a NaN passes the guard of the main loop (a NaN is not
    None), and the INSERT binds it as NULL.  With such a service the
    run completes and every row of the table and every data record of
    the exported file has a NULL encoding. *)
Lemma nan_encoding_is_stored_as_null :
  fst (fetched env_nan_encoding "Dihydrofolate") = PNaN
  /\ (exists (w' : world) (rows : list row) (file : list csv_record)
             (r : row),
        main env_nan_encoding blank_world = (Ok tt, w')
        /\ db w' = Some rows
        /\ csv_file w' = Some file
        /\ head rows = Some r
        /\ head (data_rows file) = Some (row_tuple r)
        /\ col_name r = SText "Dihydrofolate"
        /\ col_type r = SText "Natural"
        /\ col_smiles r = SNull)
  /\ ~ (forall (E : Env) (w w' : world) (file : list csv_record)
               (record : csv_record),
          main E w = (Ok tt, w') ->
          csv_file w' = Some file ->
          In record (data_rows file) ->
          record !! 2%nat <> Some SNull).
Proof.
  assert (Hrun : main env_nan_encoding blank_world
                 = (Ok tt, snd (main env_nan_encoding blank_world)))
    by (vm_compute; reflexivity).
  destruct (main_completed _ _ _ Hrun) as (rows & Hdb & Hcsv & Hall).
  assert (Hfetched : fst (fetched env_nan_encoding "Dihydrofolate") = PNaN)
    by (vm_compute; reflexivity).
  assert (Hfirst : exists (r : row) (rest : list row),
             rows = r :: rest
             /\ col_name r = SText "Dihydrofolate"
             /\ col_type r = SText "Natural"
             /\ col_smiles r = SNull).
  { assert (Hscreened : exists others,
               screened env_nan_encoding all_items_to_process
               = ("Dihydrofolate", "Natural") :: others)
      by (eexists; vm_compute; reflexivity).
    destruct Hscreened as (others & Hscreened). rewrite Hscreened in Hall.
    inversion Hall as [|item r L rest (pos & Hn & Ht & Hs & _) Hrest]; subst.
    exists r, rest. cbn [fst snd] in Hn, Ht, Hs.
    rewrite Hfetched in Hs. injection Hs as Hs. auto. }
  destruct Hfirst as (r & rest & -> & Hn & Ht & Hs).
  split; [exact Hfetched|]. split.
  - exists (snd (main env_nan_encoding blank_world)), (r :: rest),
      (csv_header :: map row_tuple (r :: rest)), r.
    split; [exact Hrun|]. split; [exact Hdb|]. split; [exact Hcsv|].
    split; [reflexivity|]. split; [reflexivity|]. auto.
  - intros Hclaim.
    apply (Hclaim env_nan_encoding blank_world _ _ (row_tuple r) Hrun Hcsv).
    + cbn. now left.
    + cbn. now rewrite Hs.
Qed.

(** Claim C1, amended.  [fetched] is what [get_compound_data] returns
    for a name, in any world.  After a completed run of [main], whatever
    the table and files held before: an item of the registry whose
    fetched encoding is not None has exactly one row with its name and
    category; an item whose fetched encoding is None has no row under
    its name, in the table or in the exported file; and every exported
    data record is the tuple of a stored row that carries the name and
    category of a registry item whose fetched encoding was not None
    when the row was stored.  The encoding cell of the row is the
    fetched encoding as a TEXT column keeps it; it is NULL exactly when
    the fetched encoding is a NaN. *)
Theorem pipeline_rows_match_fetches (E : Env) (w : world) :
  (forall (drug_name : string) (w0 : world), exists evs : list event,
      get_compound_data E drug_name w0
      = (Ok (fetched E drug_name), emit evs w0))
  /\ (forall w' : world,
        main E w = (Ok tt, w') ->
        exists (rows : list row) (file : list csv_record),
          db w' = Some rows
          /\ csv_file w' = Some file
          /\ data_rows file = map row_tuple rows
          /\ (forall name drug_type : string,
                In (name, drug_type) all_items_to_process ->
                is_none (fst (fetched E name)) = false ->
                count_rows (row_matches name drug_type) rows = 1%nat)
          /\ (forall name drug_type : string,
                In (name, drug_type) all_items_to_process ->
                is_none (fst (fetched E name)) = true ->
                count_rows (row_named name) rows = 0%nat
                /\ forall record : csv_record,
                     In record (data_rows file) ->
                     head record <> Some (SText name))
          /\ (forall record : csv_record,
                In record (data_rows file) ->
                exists (r : row) (name drug_type : string),
                  In r rows /\ record = row_tuple r
                  /\ In (name, drug_type) all_items_to_process
                  /\ col_name r = SText name
                  /\ col_type r = SText drug_type
                  /\ is_none (fst (fetched E name)) = false
                  /\ store_cell E TEXT (fst (fetched E name))
                     = Ok (col_smiles r)
                  /\ (col_smiles r = SNull <-> fst (fetched E name) = PNaN))).
Proof.
  split.
  - intros drug_name w0. exists (fetch_events E drug_name).
    apply get_compound_data_run.
  - intros w' Hmain.
    destruct (main_completed E w w' Hmain) as (rows & Hdb & Hcsv & Hall).
    exists rows, (csv_header :: map row_tuple rows).
    split; [exact Hdb|]. split; [exact Hcsv|]. split; [reflexivity|].
    cbn [data_rows tail].
    assert (Hitem : forall r : row, r ∈ rows ->
               exists (item : string * string) (pos : nat),
                 had_data E item = true /\ item ∈ all_items_to_process
                 /\ stored_row E item pos r).
    { intros r Hr.
      destruct (Forall2_right_witness _ _ _ r Hall Hr)
        as (item & Hitem & pos & Hrow).
      apply screened_elem in Hitem as [Hd Hitem]. eauto. }
    assert (Hnamed : forall (name : string) (r : row),
               is_none (fst (fetched E name)) = true ->
               r ∈ rows -> col_name r <> SText name).
    { intros name r Hnone Hr Hname.
      destruct (Hitem r Hr) as (item & pos & Hd & _ & Hn & _).
      rewrite Hname in Hn. injection Hn as Hn.
      unfold had_data in Hd. rewrite <- Hn, Hnone in Hd. discriminate Hd. }
    split; [|split].
    + intros name drug_type Hin Hsome.
      rewrite (count_rows_matches E _ _ name drug_type Hall).
      apply count_in_NoDup.
      * apply NoDup_filter, all_items_NoDup.
      * apply screened_elem. split; [|now apply list_elem_of_In].
        unfold had_data. cbn [fst]. now rewrite Hsome.
    + intros name drug_type Hin Hnone. split.
      * rewrite (count_rows_named E _ _ name Hall).
        apply length_filter_none. intros item Hit Hname.
        apply screened_elem in Hit as [Hd _].
        unfold had_data in Hd. rewrite Hname, Hnone in Hd. discriminate Hd.
      * intros record Hrec Hhead.
        apply in_map_iff in Hrec as (r & <- & Hr).
        apply (Hnamed name r Hnone); [now apply list_elem_of_In|].
        cbn in Hhead. now injection Hhead.
    + intros record Hrec.
      apply in_map_iff in Hrec as (r & <- & Hr).
      destruct (Hitem r) as (item & pos & Hd & Hin & Hn & Ht & Hs & _);
        [now apply list_elem_of_In|].
      destruct item as [name drug_type]. cbn [fst snd] in *.
      unfold had_data in Hd. cbn [fst] in Hd. apply negb_true_iff in Hd.
      exists r, name, drug_type.
      split; [exact Hr|]. split; [reflexivity|].
      split; [now apply list_elem_of_In|].
      split; [exact Hn|]. split; [exact Ht|]. split; [exact Hd|].
      split; [exact Hs|].
      pose proof (store_cell_null_iff E _ _ _ Hs) as Hnull.
      split.
      * intros Hc. apply Hnull in Hc as [Hc|Hc]; [|exact Hc].
        rewrite Hc in Hd. discriminate Hd.
      * intros Hc. apply Hnull. now right.
Qed.

(** Claim C9.  The header is the six fields Name, Type, SMILES,
    Molecular Weight, LogP, Score in this order.  Every successful export
    writes it as the first record of the file, followed by the stored
    rows; after a completed run of [main] the data records are, in
    order, one for each registry item that had data, carrying its name
    and category. *)
Theorem export_begins_with_header (E : Env) :
  csv_header
  = map SText ["Name"; "Type"; "SMILES"; "Molecular Weight"; "LogP"; "Score"]
  /\ length csv_header = 6%nat
  /\ (forall w w' : world,
        export_to_csv w = (Ok tt, w') ->
        exists rows : list row,
          db w = Some rows
          /\ csv_file w' = Some (csv_header :: map row_tuple rows))
  /\ (forall w w' : world,
        main E w = (Ok tt, w') ->
        exists data : list csv_record,
          csv_file w' = Some (csv_header :: data)
          /\ Forall2
               (fun (item : string * string) (record : csv_record) =>
                  record !! 0%nat = Some (SText (fst item))
                  /\ record !! 1%nat = Some (SText (snd item)))
               (screened E all_items_to_process) data).
Proof.
  split; [reflexivity|]. split; [reflexivity|]. split.
  - intros w w' Hexp.
    destruct (export_to_csv_ok w w' Hexp) as (rows & Hdb & _ & Hcsv). eauto.
  - intros w w' Hmain.
    destruct (main_completed E w w' Hmain) as (rows & _ & Hcsv & Hall).
    exists (map row_tuple rows). split; [exact Hcsv|].
    clear - Hall.
    induction Hall as [|item r L rows (pos & Hn & Ht & _) _ IH]; constructor.
    + cbn. now rewrite Hn, Ht.
    + apply IH.
Qed.

(** ** The statements at sample inputs *)

Lemma sample_run_completes :
  main sample_env blank_world = (Ok tt, snd (main sample_env blank_world)).
Proof. vm_compute. reflexivity. Defined.

Lemma pipeline_rows_match_fetches_witness :
  main sample_env blank_world
  = (Ok tt, snd (main sample_env blank_world))
  /\ exists (rows : list row) (file : list csv_record),
       db (snd (main sample_env blank_world)) = Some rows
       /\ csv_file (snd (main sample_env blank_world)) = Some file
       /\ count_rows (row_matches "Methotrexate" "Synthetic") rows = 1%nat
       /\ count_rows (row_named "Folic Acid") rows = 0%nat
       /\ forall record : csv_record,
            In record (data_rows file) -> record !! 2%nat <> Some SNull.
Proof.
  split; [exact sample_run_completes|].
  destruct (pipeline_rows_match_fetches sample_env blank_world)
    as (_ & Hrows).
  destruct (Hrows _ sample_run_completes)
    as (rows & file & Hdb & Hcsv & _ & Hone & Hnone & Hrec).
  exists rows, file. split; [exact Hdb|]. split; [exact Hcsv|]. split; [|split].
  - apply Hone; [cbn; tauto | vm_compute; reflexivity].
  - apply (Hnone "Folic Acid" "Natural"); [cbn; tauto | vm_compute; reflexivity].
  - intros record Hin Hnull.
    destruct (Hrec record Hin)
      as (r & name & drug_type & _ & -> & Hreg & _ & _ & Hsome & _ & Hiff).
    cbn in Hnull. injection Hnull as Hnull. apply Hiff in Hnull.
    cbn in Hreg.
    repeat (destruct Hreg as [[= <- <-]|Hreg];
            [vm_compute in Hnull, Hsome; congruence|]).
    destruct Hreg.
Defined.

Lemma export_round_trip_witness :
  db (world_with_rows [sample_row]) = Some [sample_row]
  /\ exists (w' : world) (file : list csv_record),
       export_to_csv (world_with_rows [sample_row]) = (Ok tt, w')
       /\ csv_file w' = Some file
       /\ data_rows file = [row_tuple sample_row]
       /\ length (data_rows file) = 1%nat.
Proof.
  split; [reflexivity|].
  destruct (export_round_trip (world_with_rows [sample_row]) [sample_row] eq_refl)
    as (w' & file & Hrun & _ & Hcsv & Hdata & Hlen & _).
  exists w', file. auto.
Defined.

Lemma fetch_failure_returns_null_pair_witness :
  fetch_failure sample_env "Folic Acid"
  /\ exists evs : list event,
       get_compound_data sample_env "Folic Acid" blank_world
       = (Ok (PNone, PNone), emit evs blank_world)
       /\ length (filter (fun ev => is_http_get ev = true) evs) = 1%nat.
Proof.
  assert (Hfail : fetch_failure sample_env "Folic Acid").
  { apply (non_success_reply sample_env "Folic Acid"
             {| status_code := 404; json := Raise JSONDecodeError |});
      [vm_compute; reflexivity | discriminate]. }
  split; [exact Hfail|].
  apply (fetch_failure_returns_null_pair sample_env "Folic Acid" Hfail).
Defined.


Lemma score_within_ranges_witness :
  random_uniform sample_env (-6) (-10) blank_world
  = (Ok (-6 + (-10 - -6) * (1 # 2))%Q, set_rng_pos 1 blank_world)
  /\ exists synthetic natural : Q,
       run_docking_simulation sample_env "Synthetic" blank_world
       = (Ok synthetic, set_rng_pos 2 (set_rng_pos 1 blank_world))
       /\ run_docking_simulation sample_env "Natural" blank_world
          = (Ok natural, set_rng_pos 1 blank_world)
       /\ (-12 <= synthetic <= -6)%Q
       /\ (-10 <= natural <= -6)%Q
       /\ (synthetic < natural)%Q.
Proof.
  split; [reflexivity|].
  destruct (score_within_ranges sample_env blank_world
              (set_rng_pos 1 blank_world)
              (set_rng_pos 2 (set_rng_pos 1 blank_world))
              (-6 + (-10 - -6) * (1 # 2))%Q (1 + (2 - 1) * (1 # 2))%Q)
    as (s & n & Hs & Hn & _ & _ & Hsr & Hnr & _ & Hlt).
  - reflexivity.
  - reflexivity.
  - split; vm_compute; discriminate.
  - split; vm_compute; discriminate.
  - exists s, n. auto.
Defined.

Lemma calculate_logp_cases_witness :
  calculate_logp sample_env PNone blank_world = (Ok 0%Q, blank_world)
  /\ calculate_logp sample_env (PStr "") blank_world = (Ok 0%Q, blank_world)
  /\ calculate_logp sample_env (PInt 7) blank_world
     = (Ok 0%Q, emit [Print MsgLogPError] blank_world)
  /\ calculate_logp sample_env (PStr "C") blank_world
     = (Ok 0%Q, emit [Print MsgLogPError] blank_world)
  /\ calculate_logp sample_env (PStr "CCO") blank_world
     = (Ok (- (5343 # 10000))%Q, blank_world)
  /\ calculate_logp env_digits (PStr "CCCC") blank_world
     = (Ok (12346 # 10000)%Q, blank_world)
  /\ calculate_logp env_digits (PStr "CO") blank_world
     = (Ok (- (7654 # 10000))%Q, blank_world)
  /\ calculate_logp env_digits (PStr "N") blank_world
     = (Ok (312 # 10000)%Q, blank_world).
Proof.
  destruct (calculate_logp_cases sample_env blank_world) as (Hnull & Hcases).
  split; [exact Hnull|].
  split; [apply (Hcases (PStr "")); reflexivity|].
  split; [apply (Hcases (PInt 7)) with (e := TypeError); reflexivity|].
  split.
  { destruct (Hcases (PStr "C") eq_refl) as (_ & _ & _ & Hraise & _).
    apply (Hraise "C"%string (LibraryError "MolLogP")); reflexivity. }
  split.
  { destruct (Hcases (PStr "CCO") eq_refl) as (_ & _ & _ & _ & Hok).
    apply (Hok "CCO"%string (- (5343 # 10000))%Q); reflexivity. }
  destruct (calculate_logp_cases env_digits blank_world) as (_ & Hdigits).
  split.
  { destruct (Hdigits (PStr "CCCC") eq_refl) as (_ & _ & _ & _ & Hok).
    apply (Hok "CCCC"%string (123456789 # 100000000)%Q); reflexivity. }
  split.
  { destruct (Hdigits (PStr "CO") eq_refl) as (_ & _ & _ & _ & Hok).
    apply (Hok "CO"%string (- (76543 # 100000))%Q); reflexivity. }
  destruct (Hdigits (PStr "N") eq_refl) as (_ & _ & _ & _ & Hok).
  apply (Hok "N"%string (1 # 32)%Q); reflexivity.
Defined.



Lemma dashboard_load_failure_witness :
  pd_read_csv sample_plot_env (csv_file blank_world) = Raise FileNotFoundError
  /\ create_dashboard sample_plot_env blank_world
     = (Ok tt, emit [Print (MsgLoadError FileNotFoundError)] blank_world)
  /\ png_file (snd (create_dashboard sample_plot_env blank_world)) = None.
Proof.
  split; [reflexivity|].
  destruct (dashboard_load_failure sample_plot_env blank_world
              FileNotFoundError eq_refl) as (Hrun & Hpng & _).
  split; [exact Hrun|exact Hpng].
Defined.

Lemma export_begins_with_header_witness :
  exists data : list csv_record,
    csv_file (snd (main sample_env blank_world)) = Some (csv_header :: data)
    /\ length data = 1%nat.
Proof.
  destruct (export_begins_with_header sample_env) as (_ & _ & _ & Hmain).
  destruct (Hmain blank_world (snd (main sample_env blank_world)))
    as (data & Hcsv & Hall); [vm_compute; reflexivity|].
  exists data. split; [exact Hcsv|].
  apply Forall2_length in Hall. rewrite <- Hall. vm_compute. reflexivity.
Defined.

Lemma other_categories_score_like_natural_witness :
  "synthetic" <> "Synthetic"
  /\ run_docking_simulation env_digits "synthetic" blank_world
     = (Ok (- (733 # 100))%Q, set_rng_pos 1 blank_world)
  /\ run_docking_simulation env_digits "synthetic" blank_world
     = run_docking_simulation env_digits "Natural" blank_world
  /\ run_docking_simulation sample_env "Natural substrate" blank_world
     = (Ok (- (800 # 100))%Q, set_rng_pos 1 blank_world).
Proof.
  assert (Hne : "synthetic" <> "Synthetic") by discriminate.
  split; [exact Hne|].
  destruct (other_categories_score_like_natural env_digits "synthetic"
              blank_world Hne) as (base & Hbase & Hrun & Hsame & _).
  unfold random_uniform in Hbase. injection Hbase as <-.
  split; [exact Hrun|]. split; [exact Hsame|].
  assert (Hne' : "Natural substrate" <> "Synthetic") by discriminate.
  destruct (other_categories_score_like_natural sample_env "Natural substrate"
              blank_world Hne') as (base & Hbase & Hrun' & _).
  unfold random_uniform in Hbase. injection Hbase as <-.
  exact Hrun'.
Defined.

(** * Further properties of the pipeline *)

Lemma fetch_events_closing (E : Env) (drug_name : string) :
  exists closing : msg,
    fetch_events E drug_name
    = [Print (MsgProcessing drug_name); Print (MsgConnecting drug_name);
       request_for drug_name; Print closing]
    /\ (closing = MsgFoundMW (snd (fetched E drug_name))
        \/ (fetched E drug_name = (PNone, PNone)
            /\ ((exists code : Z, closing = MsgStatusError code /\ code <> 200%Z)
                \/ exists e : exn, closing = MsgCriticalError e))).
Proof.
  unfold fetched, fetch_events, request_for. unfold_fetch.
  case_split;
    (eexists; split; [reflexivity|]);
    first
      [ left; reflexivity
      | right; split; [reflexivity|];
        first [ left; eexists; split; [reflexivity|];
                apply Z.eqb_neq; assumption
              | right; eexists; reflexivity ] ].
Qed.

(** Property X1.  Every fetch returns normally and adds the same four events to the
    output, changing nothing else: the two progress lines, the one
    request (to the address built from the name, with the fixed client
    name and a timeout of 10), and a closing line.  The closing line is
    the found-mass line, carrying the returned mass, or else a status or
    critical-error line, and then the pair is [(None, None)]. *)
Theorem get_compound_data_trace (E : Env) (drug_name : string) (w : world) :
  exists closing : msg,
    get_compound_data E drug_name w
    = (Ok (fetched E drug_name),
       emit [Print (MsgProcessing drug_name); Print (MsgConnecting drug_name);
             HttpGet (BASE_URL_format drug_name)
               "StudentPortfolioProject/1.0" 10;
             Print closing] w)
    /\ (closing = MsgFoundMW (snd (fetched E drug_name))
        \/ (fetched E drug_name = (PNone, PNone)
            /\ ((exists code : Z, closing = MsgStatusError code /\ code <> 200%Z)
                \/ exists e : exn, closing = MsgCriticalError e))).
Proof.
  destruct (fetch_events_closing E drug_name) as (closing & Hevs & Hclosing).
  exists closing. split; [|exact Hclosing].
  rewrite get_compound_data_run, Hevs. reflexivity.
Qed.

(** Property X2.  A component that is not null can only come from a 200 reply of the
    expected nesting whose first result is an object. *)
Theorem fetched_needs_shape (E : Env) (drug_name : string) :
  fetched E drug_name <> (PNone, PNone) ->
  exists d : gmap string pyval, reply_first_result E drug_name d.
Proof.
  rewrite fetched_of_attempt. unfold_fetch. unfold reply_first_result.
  intros Hne.
  destruct (requests_get E (BASE_URL_format drug_name)) as [r|e] eqn:Hr;
    [|now destruct Hne].
  destruct (status_code r =? 200)%Z eqn:Hs; [|now destruct Hne].
  apply Z.eqb_eq in Hs.
  destruct (json r) as [j|e] eqn:Hj; [|now destruct Hne].
  destruct j as [| | | | | | | |top]; try now destruct Hne.
  cbn [getitem_key] in Hne.
  destruct (top !! "PropertyTable") as [pt|] eqn:Ht; [|now destruct Hne].
  destruct pt as [| | | | | | | |table]; try now destruct Hne.
  cbn [getitem_key] in Hne.
  destruct (table !! "Properties") as [pl|] eqn:Hp; [|now destruct Hne].
  destruct pl as [| | | | | |s|l|]; try now destruct Hne.
  - destruct s; now destruct Hne.
  - destruct l as [|fr rest]; [now destruct Hne|].
    destruct fr as [| | | | | | | |d]; try now destruct Hne.
    exists d, r, top, table, rest. auto.
Qed.

(** Property X3.  When the table exists and the six values can be bound, the INSERT
    appends exactly one row after the rows already there and changes
    nothing else; a cell is NULL exactly when its value is None or a
    NaN, which SQLite keeps as NULL. *)
Theorem save_result_to_db_appends (E : Env)
  (name drug_type smiles mw logp score : pyval) (w : world) (rows : list row) :
  db w = Some rows ->
  storable name = true -> storable drug_type = true ->
  storable smiles = true -> storable mw = true ->
  storable logp = true -> storable score = true ->
  exists r : row,
    save_result_to_db E name drug_type smiles mw logp score w
    = (Ok tt, set_db (Some (rows ++ [r])%list) w)
    /\ (col_name r = SNull <-> name = PNone \/ name = PNaN)
    /\ (col_type r = SNull <-> drug_type = PNone \/ drug_type = PNaN)
    /\ (col_smiles r = SNull <-> smiles = PNone \/ smiles = PNaN)
    /\ (col_mw r = SNull <-> mw = PNone \/ mw = PNaN)
    /\ (col_logp r = SNull <-> logp = PNone \/ logp = PNaN)
    /\ (col_score r = SNull <-> score = PNone \/ score = PNaN).
Proof.
  intros Hdb H1 H2 H3 H4 H5 H6.
  apply (store_cell_storable E TEXT) in H1 as [c1 C1].
  apply (store_cell_storable E TEXT) in H2 as [c2 C2].
  apply (store_cell_storable E TEXT) in H3 as [c3 C3].
  apply (store_cell_storable E REAL) in H4 as [c4 C4].
  apply (store_cell_storable E REAL) in H5 as [c5 C5].
  apply (store_cell_storable E REAL) in H6 as [c6 C6].
  eexists. split.
  - cbv [save_result_to_db bind table_rows lift].
    rewrite Hdb, C1, C2, C3, C4, C5, C6. reflexivity.
  - cbn [col_name col_type col_smiles col_mw col_logp col_score].
    pose proof (store_cell_null_iff E _ _ _ C1).
    pose proof (store_cell_null_iff E _ _ _ C2).
    pose proof (store_cell_null_iff E _ _ _ C3).
    pose proof (store_cell_null_iff E _ _ _ C4).
    pose proof (store_cell_null_iff E _ _ _ C5).
    pose proof (store_cell_null_iff E _ _ _ C6).
    tauto.
Qed.

Lemma first_bind_error_kind (values : list pyval) (e : exn) :
  first_bind_error values = Some e -> bind_error e.
Proof.
  induction values as [|v rest IH]; [discriminate|]. cbn [first_bind_error].
  destruct (sqlite_bind v) as [c|e'] eqn:Hb; [exact IH|].
  intros [= <-]. unfold bind_error.
  destruct (sqlite_bind_error v e' Hb) as [[-> _]|[[-> _]|[-> _]]]; auto.
Qed.

(** Property X4.  When the table is missing the INSERT raises an OperationalError.
    When the table exists and one of the six values cannot be bound, it
    raises the error of the first such value: a ProgrammingError for a
    list or an object, an OverflowError for an integer outside 64 bits,
    a UnicodeEncodeError for a string with a lone surrogate.  In both
    cases, and whenever it raises, the world is left as it was. *)
Theorem save_result_to_db_failure (E : Env)
  (name drug_type smiles mw logp score : pyval) (w : world) :
  (db w = None ->
   save_result_to_db E name drug_type smiles mw logp score w
   = (Raise OperationalError, w))
  /\ (forall (rows : list row) (e : exn),
        db w = Some rows ->
        first_bind_error [name; drug_type; smiles; mw; logp; score] = Some e ->
        save_result_to_db E name drug_type smiles mw logp score w = (Raise e, w)
        /\ bind_error e)
  /\ (forall l : list pyval, first_bind_error [PList l] = Some ProgrammingError)
  /\ (forall d : gmap string pyval,
        first_bind_error [PDict d] = Some ProgrammingError)
  /\ (forall n : Z, ~ (- 2 ^ 63 <= n < 2 ^ 63)%Z ->
        first_bind_error [PInt n] = Some OverflowError)
  /\ (forall s : string, has_lone_surrogate s = true ->
        first_bind_error [PStr s] = Some UnicodeEncodeError)
  /\ (forall (e : exn) (w' : world),
        save_result_to_db E name drug_type smiles mw logp score w = (Raise e, w') ->
        w' = w).
Proof.
  split; [|split; [|split; [|split; [|split; [|split]]]]].
  - intros Hdb. cbv [save_result_to_db bind table_rows lift].
    rewrite Hdb. reflexivity.
  - intros rows e Hdb Hfirst.
    split; [|exact (first_bind_error_kind _ _ Hfirst)].
    cbv [save_result_to_db bind table_rows lift store_cell]. rewrite Hdb.
    cbn [first_bind_error] in Hfirst.
    destruct (sqlite_bind name); [|now injection Hfirst as ->].
    destruct (sqlite_bind drug_type); [|now injection Hfirst as ->].
    destruct (sqlite_bind smiles); [|now injection Hfirst as ->].
    destruct (sqlite_bind mw); [|now injection Hfirst as ->].
    destruct (sqlite_bind logp); [|now injection Hfirst as ->].
    destruct (sqlite_bind score); [discriminate Hfirst|].
    now injection Hfirst as ->.
  - reflexivity.
  - reflexivity.
  - intros n Hn. cbn [first_bind_error sqlite_bind].
    destruct ((- 2 ^ 63 <=? n)%Z && (n <? 2 ^ 63)%Z) eqn:Hb; [|reflexivity].
    exfalso. apply Hn. apply andb_true_iff in Hb. lia.
  - intros s Hs. cbn [first_bind_error sqlite_bind]. rewrite Hs. reflexivity.
  - intros e w'. cbv [save_result_to_db bind table_rows lift].
    case_split; intros H; try discriminate H; now injection H.
Qed.

(** Property X5.  When the table is missing the export raises an OperationalError
    at the SELECT, before the file is opened: the CSV file is neither
    created nor changed, and only the first line has been printed. *)
Theorem export_to_csv_failure (w : world) :
  db w = None ->
  export_to_csv w = (Raise OperationalError, emit [Print MsgExporting] w)
  /\ csv_file (snd (export_to_csv w)) = csv_file w.
Proof.
  intros Hdb.
  assert (Hrun : export_to_csv w
                 = (Raise OperationalError, emit [Print MsgExporting] w)).
  { cbv [export_to_csv bind print table_rows]. cbn [db emit].
    rewrite Hdb. reflexivity. }
  split; [exact Hrun|]. rewrite Hrun. reflexivity.
Qed.

(** Property X6.  The export overwrites: what the file held before plays no role, and
    exporting again gives the same file and leaves the table alone. *)
Theorem export_to_csv_overwrites (w w1 : world) :
  export_to_csv w = (Ok tt, w1) ->
  (forall previous : option (list csv_record),
      csv_file (snd (export_to_csv (set_csv_file previous w))) = csv_file w1)
  /\ exists w2 : world,
       export_to_csv w1 = (Ok tt, w2)
       /\ csv_file w2 = csv_file w1
       /\ db w2 = db w.
Proof.
  intros Hexp.
  destruct (export_to_csv_ok w w1 Hexp) as (rows & Hdb & Hdb1 & Hcsv).
  split.
  - intros previous.
    rewrite (export_to_csv_run (set_csv_file previous w) rows Hdb).
    rewrite Hcsv. reflexivity.
  - rewrite (export_to_csv_run w1 rows Hdb1).
    eexists. split; [reflexivity|]. cbn. rewrite Hcsv, Hdb. auto.
Qed.

(** Property X7.  Creating the database and exporting at once gives a file with the
    header only, whatever the table and the file held before. *)
Theorem fresh_database_exports_header_only (w : world) :
  exists w' : world,
    (create_database ;; export_to_csv) w = (Ok tt, w')
    /\ db w' = Some []
    /\ csv_file w' = Some [csv_header]
    /\ png_file w' = png_file w
    /\ rng_pos w' = rng_pos w.
Proof.
  eexists. split.
  - unfold create_database. unfold bind at 1. unfold bind at 1.
    unfold print at 1.
    rewrite (export_to_csv_run (set_db (Some []) (emit [Print MsgSetupDb] w))
               [] eq_refl).
    reflexivity.
  - cbn. auto.
Qed.

(** Property X8.  The image is written exactly when the load and the drawing both
    succeed, at 300 dpi; an error raised while drawing is not caught. *)
Theorem dashboard_image_iff (P : PlotEnv) (w : world) :
  let loaded := pd_read_csv P (csv_file w) in
  let result := fst (create_dashboard P w) in
  let w' := snd (create_dashboard P w) in
  csv_file w' = csv_file w
  /\ db w' = db w
  /\ (forall df : DataFrame P,
        loaded = Ok df -> draw_panels P df = Ok tt ->
        result = Ok tt
        /\ png_file w' = Some (Figure 300)
        /\ out w' = (out w ++ [Print MsgDataLoaded;
                               Print (MsgDashboardSaved "dashboard.png")])%list)
  /\ (forall (df : DataFrame P) (e : exn),
        loaded = Ok df -> draw_panels P df = Raise e ->
        result = Raise e /\ png_file w' = png_file w)
  /\ (forall e : exn,
        loaded = Raise e -> result = Ok tt /\ png_file w' = png_file w).
Proof.
  cbv zeta.
  cbv [create_dashboard try_except bind print ret lift plt_savefig].
  destruct (pd_read_csv P (csv_file w)) as [df|e] eqn:Hload; cbn [fst snd].
  - destruct (draw_panels P df) as [[]|e] eqn:Hdraw; cbn [fst snd].
    + split; [reflexivity|]. split; [reflexivity|]. split; [|split].
      * intros df' [= <-] _. cbn. rewrite <- app_assoc. auto.
      * intros df' e' [= <-] Hd. rewrite Hd in Hdraw. discriminate Hdraw.
      * discriminate.
    + split; [reflexivity|]. split; [reflexivity|]. split; [|split].
      * intros df' [= <-] Hd. rewrite Hd in Hdraw. discriminate Hdraw.
      * intros df' e' [= <-] Hd. rewrite Hd in Hdraw.
        injection Hdraw as <-. auto.
      * discriminate.
  - split; [reflexivity|]. split; [reflexivity|]. split; [|split].
    + discriminate.
    + discriminate.
    + intros e' [= <-]. auto.
Qed.

(** Property X9.  After a completed run every stored row is made of: the item's name
    and category, the fetched encoding and mass as the columns keep
    them, the logP computed from that encoding, and a score drawn for
    that category; the rows follow the registry order. *)
Theorem main_rows_provenance (E : Env) (w w' : world) :
  main E w = (Ok tt, w') ->
  exists rows : list row,
    db w' = Some rows
    /\ Forall2 (fun item r => exists pos : nat, stored_row E item pos r)
         (screened E all_items_to_process) rows.
Proof.
  intros Hmain.
  destruct (main_full E w)
    as (result & w1 & evs & rows & Hrun & _ & _ & Hdb & Hok & _).
  rewrite Hrun in Hmain. injection Hmain as -> ->.
  exists rows. split; [exact Hdb|]. now apply Hok.
Qed.

(** Property X10.  A completed run sends one request per registry item, in registry
    order, and pauses one second after each of them: requests and
    pauses alternate. *)
Theorem main_requests_are_paced (E : Env) (w w' : world) :
  main E w = (Ok tt, w') ->
  exists evs : list event,
    out w' = (out w ++ evs)%list
    /\ filter (fun ev => is_paced ev = true) evs = paced all_items_to_process
    /\ length (filter (fun ev => is_http_get ev = true) evs) = 10%nat
    /\ length (filter (fun ev => is_sleep ev = true) evs) = 10%nat.
Proof.
  intros Hmain.
  destruct (main_full E w)
    as (result & w1 & evs & rows & Hrun & _ & Hout & _ & Hok & _).
  rewrite Hrun in Hmain. injection Hmain as -> ->.
  destruct (Hok eq_refl) as (_ & Hpace & _).
  exists evs. split; [exact Hout|]. split; [exact Hpace|].
  assert (Hsub : forall p : event -> bool,
             (forall ev, p ev = true -> is_paced ev = true) ->
             filter (fun ev => p ev = true) evs
             = filter (fun ev => p ev = true)
                 (filter (fun ev => is_paced ev = true) evs)).
  { intros p Himp. clear - Himp. induction evs as [|ev evs IH]; [reflexivity|].
    rewrite !filter_cons.
    destruct (decide (is_paced ev = true)) as [Hp|Hp].
    - rewrite filter_cons. destruct (decide (p ev = true)); now rewrite IH.
    - destruct (decide (p ev = true)) as [Hq|Hq]; [|exact IH].
      exfalso. apply Hp, Himp, Hq. }
  split.
  - rewrite (Hsub is_http_get), Hpace; [reflexivity|].
    intros ev Hev. unfold is_paced. now rewrite Hev.
  - rewrite (Hsub is_sleep), Hpace; [reflexivity|].
    intros ev Hev. unfold is_paced. rewrite Hev. apply orb_true_r.
Qed.

(** Property X11.  When a registry item has an encoding that is not None and its
    encoding or mass cannot be bound, the run aborts at the INSERT of
    the first such item, with the error of the binding.  The CSV file
    and the image are left as they were (no export happens), and the
    table, recreated at the start, holds the rows of the items before
    the failing one. *)
Theorem main_failure (E : Env) (w : world) (item : string * string) :
  In item all_items_to_process ->
  unstorable E item ->
  exists (e : exn) (w' : world) (rows : list row)
         (done : list (string * string)) (failing : string * string)
         (rest : list (string * string)),
    main E w = (Raise e, w')
    /\ bind_error e
    /\ csv_file w' = csv_file w
    /\ png_file w' = png_file w
    /\ db w' = Some rows
    /\ all_items_to_process = (done ++ failing :: rest)%list
    /\ unstorable E failing
    /\ Forall2 (fun item r => exists pos : nat, stored_row E item pos r)
         (screened E done) rows.
Proof.
  intros Hin (Hdata & Hbad).
  destruct (main_full E w)
    as (result & w1 & evs & rows & Hrun & Hpng & _ & Hdb & Hok & Hfail).
  destruct result as [[]|e].
  - exfalso. destruct (Hok eq_refl) as (_ & _ & Hall).
    assert (Hscreened : item ∈ screened E all_items_to_process).
    { apply screened_elem. split; [exact Hdata|now apply list_elem_of_In]. }
    destruct (Forall2_left_witness _ _ _ item Hall Hscreened)
      as (r & _ & pos & Hrow).
    destruct (stored_row_storable E item pos r Hrow) as [Hs Hm].
    destruct Hbad as [Hbad|Hbad]; congruence.
  - destruct (Hfail e eq_refl)
      as (Hcsv & Hkind & done & failing & rest & Hsplit & Hunst & Hall).
    exists e, w1, rows, done, failing, rest. auto 10.
Qed.

(** Property X12.  Running the pipeline again after a completed run completes too, and
    gives a table with as many rows, equal to the earlier ones in every
    column but the score: the rows of the first run are not kept, and
    nothing is stored twice. *)
Theorem main_rerun (E : Env) (w w1 : world) :
  main E w = (Ok tt, w1) ->
  exists (w2 : world) (rows1 rows2 : list row),
    main E w1 = (Ok tt, w2)
    /\ db w1 = Some rows1
    /\ db w2 = Some rows2
    /\ length rows2 = length rows1
    /\ Forall2 same_but_score rows1 rows2.
Proof.
  intros Hmain.
  destruct (main_full E w)
    as (result & w1' & evs & rows1 & Hrun & _ & _ & Hdb1 & Hok1 & _).
  rewrite Hrun in Hmain. injection Hmain as -> ->.
  destruct (Hok1 eq_refl) as (_ & _ & Hall1).
  destruct (main_full E w1)
    as (result & w2 & evs2 & rows2 & Hrun2 & _ & _ & Hdb2 & Hok2 & Hfail2).
  destruct result as [[]|e].
  - destruct (Hok2 eq_refl) as (_ & _ & Hall2).
    exists w2, rows1, rows2. split; [exact Hrun2|].
    split; [exact Hdb1|]. split; [exact Hdb2|].
    assert (Hsame : Forall2 same_but_score rows1 rows2).
    { clear - Hall1 Hall2.
      revert rows2 Hall2.
      induction Hall1 as [|item r1 L rows1 (p1 & H1) _ IH];
        intros rows2 Hall2; inversion Hall2 as [|? r2 ? rows2' (p2 & H2) Hrest];
        subst; constructor; [|now apply IH].
      destruct H1 as (N1 & T1 & S1 & M1 & L1 & _).
      destruct H2 as (N2 & T2 & S2 & M2 & L2 & _).
      unfold same_but_score. rewrite N1, N2, T1, T2, L1, L2.
      rewrite S1 in S2. rewrite M1 in M2.
      injection S2 as ->. injection M2 as ->. auto. }
    split; [|exact Hsame].
    symmetry. apply (Forall2_length _ _ _ Hsame).
  - exfalso.
    destruct (Hfail2 e eq_refl)
      as (_ & _ & done & item & rest & Hsplit & (Hdata & Hbad) & _).
    assert (Hscreened : item ∈ screened E all_items_to_process).
    { apply screened_elem. split; [exact Hdata|].
      rewrite Hsplit. apply elem_of_app. right. now left. }
    destruct (Forall2_left_witness _ _ _ item Hall1 Hscreened)
      as (r & _ & pos & Hrow).
    destruct (stored_row_storable E item pos r Hrow) as [Hs Hm].
    destruct Hbad as [Hbad|Hbad]; congruence.
Qed.


Local Open Scope Q_scope.

Lemma score_at_eq (E : Env) (drug_type : string) (pos : nat) :
  score_at E drug_type pos
  = py_round
      (if String.eqb drug_type "Synthetic"
       then (-6 + (-10 - -6) * random_random E pos)
            - (1 + (2 - 1) * random_random E (S pos))
       else -6 + (-10 - -6) * random_random E pos) 2.
Proof.
  unfold score_at.
  cbv [run_docking_simulation bind random_uniform ret fst].
  destruct (String.eqb drug_type "Synthetic"); reflexivity.
Qed.

Lemma score_at_range (E : Env) (drug_type : string) (pos : nat) :
  unit_samples E ->
  (drug_type = "Synthetic"%string -> -12 <= score_at E drug_type pos <= -7)
  /\ (drug_type <> "Synthetic"%string -> -10 <= score_at E drug_type pos <= -6).
Proof.
  intros Hunit. rewrite score_at_eq.
  pose proof (Hunit pos) as [H1 H2]. pose proof (Hunit (S pos)) as [H3 H4].
  split.
  - intros ->. change (String.eqb "Synthetic" "Synthetic") with true.
    cbv iota. apply (py_round_2_between (-12) (-7)).
    change (inject_Z (-12)) with (-12). change (inject_Z (-7)) with (-7).
    split; lra.
  - intros Hne. apply String.eqb_neq in Hne. rewrite Hne.
    apply (py_round_2_between (-10) (-6)).
    change (inject_Z (-10)) with (-10). change (inject_Z (-6)) with (-6).
    split; lra.
Qed.

(** Property X14.  When the generator yields samples in [0, 1], as [random.random()]
    does, the score for "Synthetic" lies in [-12, -7] (never above -7)
    and uses two samples, the score for any other label lies in
    [-10, -6] and uses one. *)
Theorem scores_with_unit_samples (E : Env) (drug_type : string) (w : world) :
  unit_samples E ->
  exists q : Q,
    run_docking_simulation E drug_type w
    = (Ok q, set_rng_pos (rng_pos w + samples_used drug_type) w)
    /\ (drug_type = "Synthetic"%string -> -12 <= q <= -7)
    /\ (drug_type <> "Synthetic"%string -> -10 <= q <= -6).
Proof.
  intros Hunit. exists (score_at E drug_type (rng_pos w)).
  split; [apply run_docking_simulation_run|].
  destruct (score_at_range E drug_type (rng_pos w) Hunit) as [Hs Hn].
  split; [exact Hs|exact Hn].
Qed.

(** Property X15.  With such a generator, every score in the table after a completed
    run lies in the range of its row's category. *)
Theorem main_scores_in_range (E : Env) (w w' : world) :
  unit_samples E ->
  main E w = (Ok tt, w') ->
  exists rows : list row,
    db w' = Some rows
    /\ forall r : row,
         In r rows ->
         exists q : Q,
           col_score r = SReal q
           /\ ((col_type r = SText "Natural" /\ -10 <= q <= -6)
               \/ (col_type r = SText "Synthetic" /\ -12 <= q <= -7)).
Proof.
  intros Hunit Hmain.
  destruct (main_full E w)
    as (result & w1 & evs & rows & Hrun & _ & _ & Hdb & Hok & _).
  rewrite Hrun in Hmain. injection Hmain as -> ->.
  destruct (Hok eq_refl) as (_ & _ & Hall).
  exists rows. split; [exact Hdb|]. intros r Hr.
  apply list_elem_of_In in Hr.
  destruct (Forall2_right_witness _ _ _ r Hall Hr)
    as (item & Hitem & pos & _ & HT & _ & _ & _ & HS).
  apply screened_elem in Hitem as [_ Hitem]. apply list_elem_of_In in Hitem.
  exists (score_at E (snd item) pos). split; [exact HS|].
  destruct (score_at_range E (snd item) pos Hunit) as [Hsyn Hnat].
  rewrite HT.
  assert (Htype : snd item = "Natural"%string \/ snd item = "Synthetic"%string).
  { cbn in Hitem. intuition (subst; cbn; auto). }
  destruct Htype as [Ht|Ht]; rewrite Ht in *.
  - left. split; [reflexivity|]. apply Hnat. discriminate.
  - right. split; [reflexivity|]. now apply Hsyn.
Qed.

Local Close Scope Q_scope.

(** Property X17.  The loop appends to whatever the table holds and does not
    deduplicate: after a completed pass over any list of items, the rows
    that were there stay in front, followed by one row for each item
    that had data, in the order of the list, also when a name occurs
    more than once; the CSV file and the image are not touched. *)
Theorem main_loop_appends (E : Env) (items : list (string * string))
  (w w' : world) (rows : list row) :
  db w = Some rows ->
  for_each items (process_item E) w = (Ok tt, w') ->
  csv_file w' = csv_file w
  /\ png_file w' = png_file w
  /\ exists new : list row,
       db w' = Some (rows ++ new)%list
       /\ length new
          = length (filter (fun item => had_data E item = true) items)
       /\ Forall2 (fun item r => exists pos : nat, stored_row E item pos r)
            (screened E items) new.
Proof.
  intros Hdb Hloop.
  destruct (main_loop_full E items w rows Hdb)
    as (result & w1 & evs & new & Hrun & Hcsv & Hpng & _ & Hdb1 & Hok & _).
  rewrite Hrun in Hloop. injection Hloop as -> ->.
  destruct (Hok eq_refl) as (_ & Hall).
  split; [exact Hcsv|]. split; [exact Hpng|].
  exists new. split; [exact Hdb1|]. split; [|exact Hall].
  symmetry. apply (Forall2_length _ _ _ Hall).
Qed.

(** ** The further properties at sample inputs *)

Lemma sample_env_unit_samples : unit_samples sample_env.
Proof. intros n. split; discriminate. Qed.

Lemma fetched_needs_shape_witness :
  fetched sample_env "Methotrexate" <> (PNone, PNone)
  /\ exists d : gmap string pyval,
       reply_first_result sample_env "Methotrexate" d.
Proof.
  assert (Hne : fetched sample_env "Methotrexate" <> (PNone, PNone))
    by (vm_compute; discriminate).
  split; [exact Hne|].
  apply (fetched_needs_shape sample_env "Methotrexate" Hne).
Defined.

Lemma save_result_to_db_appends_witness :
  exists r : row,
    save_result_to_db sample_env (PStr "Aspirin") (PStr "Synthetic")
      (PStr "CC(=O)OC1=CC=CC=C1C(=O)O") PNaN (PFloat 1) (PFloat (-8))
      (world_with_rows [sample_row])
    = (Ok tt,
       set_db (Some [sample_row; r]) (world_with_rows [sample_row]))
    /\ col_mw r = SNull
    /\ col_smiles r <> SNull.
Proof.
  destruct (save_result_to_db_appends sample_env (PStr "Aspirin")
              (PStr "Synthetic") (PStr "CC(=O)OC1=CC=CC=C1C(=O)O") PNaN
              (PFloat 1) (PFloat (-8)) (world_with_rows [sample_row])
              [sample_row] eq_refl eq_refl eq_refl eq_refl eq_refl eq_refl
              eq_refl)
    as (r & Hrun & _ & _ & Hs & Hm & _).
  exists r. split; [exact Hrun|]. split.
  - apply Hm. now right.
  - intros Hnull. apply Hs in Hnull as [Hnull|Hnull]; discriminate Hnull.
Defined.

Lemma save_result_to_db_failure_witness :
  save_result_to_db sample_env (PStr "Aspirin") (PStr "Synthetic")
    (PStr lone_surrogate) (PList []) (PFloat 1) (PFloat (-8))
    (world_with_rows [])
  = (Raise UnicodeEncodeError, world_with_rows [])
  /\ save_result_to_db sample_env (PStr "Aspirin") (PStr "Synthetic")
       (PStr lone_surrogate) (PList []) (PFloat 1) (PFloat (-8)) blank_world
     = (Raise OperationalError, blank_world).
Proof.
  destruct (save_result_to_db_failure sample_env (PStr "Aspirin")
              (PStr "Synthetic") (PStr lone_surrogate) (PList []) (PFloat 1)
              (PFloat (-8)) (world_with_rows []))
    as (_ & Hbind & _).
  destruct (save_result_to_db_failure sample_env (PStr "Aspirin")
              (PStr "Synthetic") (PStr lone_surrogate) (PList []) (PFloat 1)
              (PFloat (-8)) blank_world)
    as (Hmissing & _).
  split.
  - apply (Hbind [] UnicodeEncodeError); reflexivity.
  - apply Hmissing. reflexivity.
Defined.

Lemma export_to_csv_failure_witness :
  db blank_world = None
  /\ export_to_csv blank_world
     = (Raise OperationalError, emit [Print MsgExporting] blank_world)
  /\ csv_file (snd (export_to_csv blank_world)) = None.
Proof.
  split; [reflexivity|].
  apply (export_to_csv_failure blank_world eq_refl).
Defined.

Lemma main_failure_witness :
  main env_mass_as_list blank_world
  = (Raise ProgrammingError, snd (main env_mass_as_list blank_world))
  /\ csv_file (snd (main env_mass_as_list blank_world)) = None
  /\ exists rows : list row,
       db (snd (main env_mass_as_list blank_world)) = Some rows.
Proof.
  destruct (main_failure env_mass_as_list blank_world
              ("Pemetrexed", "Synthetic"))
    as (e & w' & rows & done & failing & rest & Hrun & _ & Hcsv & _ & Hdb & _).
  - cbn. tauto.
  - split; [vm_compute; reflexivity|]. right. vm_compute. reflexivity.
  - assert (Hfst : fst (main env_mass_as_list blank_world)
                   = Raise ProgrammingError) by (vm_compute; reflexivity).
    rewrite Hrun in *. cbn [fst snd] in *. injection Hfst as ->.
    split; [reflexivity|]. split; [exact Hcsv|]. exists rows. exact Hdb.
Defined.

Lemma scores_with_unit_samples_witness :
  exists q : Q,
    run_docking_simulation sample_env "Synthetic" blank_world
    = (Ok q, set_rng_pos 2 blank_world)
    /\ (-12 <= q <= -7)%Q.
Proof.
  destruct (scores_with_unit_samples sample_env "Synthetic" blank_world
              sample_env_unit_samples) as (q & Hrun & Hsyn & _).
  exists q. split; [exact Hrun|]. now apply Hsyn.
Defined.

Lemma export_to_csv_overwrites_witness :
  exists w1 w2 : world,
    export_to_csv (world_with_rows [sample_row]) = (Ok tt, w1)
    /\ export_to_csv w1 = (Ok tt, w2)
    /\ csv_file w2 = csv_file w1.
Proof.
  assert (Hrun : export_to_csv (world_with_rows [sample_row])
                 = (Ok tt, snd (export_to_csv (world_with_rows [sample_row]))))
    by reflexivity.
  destruct (export_to_csv_overwrites _ _ Hrun) as (_ & w2 & Hagain & Hcsv & _).
  eexists; exists w2. split; [exact Hrun|]. split; [exact Hagain|exact Hcsv].
Defined.

Lemma dashboard_image_iff_witness :
  png_file (snd (create_dashboard sample_plot_env (world_with_csv [csv_header])))
  = Some (Figure 300)
  /\ png_file (snd (create_dashboard sample_plot_env blank_world)) = None.
Proof.
  split.
  - destruct (dashboard_image_iff sample_plot_env (world_with_csv [csv_header]))
      as (_ & _ & Hok & _).
    apply (Hok [csv_header]); reflexivity.
  - destruct (dashboard_image_iff sample_plot_env blank_world)
      as (_ & _ & _ & _ & Hfail).
    apply (Hfail FileNotFoundError). reflexivity.
Defined.

Lemma main_rows_provenance_witness :
  exists rows : list row,
    db (snd (main sample_env blank_world)) = Some rows
    /\ length rows = 1%nat.
Proof.
  destruct (main_rows_provenance sample_env blank_world _ sample_run_completes)
    as (rows & Hdb & Hall).
  exists rows. split; [exact Hdb|].
  apply Forall2_length in Hall. rewrite <- Hall. vm_compute. reflexivity.
Defined.

Lemma main_requests_are_paced_witness :
  exists evs : list event,
    out (snd (main sample_env blank_world)) = evs
    /\ filter (fun ev => is_paced ev = true) evs = paced all_items_to_process.
Proof.
  destruct (main_requests_are_paced sample_env blank_world _
              sample_run_completes) as (evs & Hout & Hpace & _).
  exists evs. split; [exact Hout|exact Hpace].
Defined.

Lemma main_rerun_witness :
  exists (w2 : world) (rows1 rows2 : list row),
    main sample_env (snd (main sample_env blank_world)) = (Ok tt, w2)
    /\ db (snd (main sample_env blank_world)) = Some rows1
    /\ db w2 = Some rows2
    /\ length rows2 = length rows1.
Proof.
  destruct (main_rerun sample_env blank_world _ sample_run_completes)
    as (w2 & rows1 & rows2 & Hrun & Hdb1 & Hdb2 & Hlen & _).
  exists w2, rows1, rows2. auto.
Defined.



Lemma main_scores_in_range_witness :
  exists rows : list row,
    db (snd (main sample_env blank_world)) = Some rows
    /\ forall r : row,
         In r rows ->
         exists q : Q,
           col_score r = SReal q
           /\ ((col_type r = SText "Natural" /\ (-10 <= q <= -6)%Q)
               \/ (col_type r = SText "Synthetic" /\ (-12 <= q <= -7)%Q)).
Proof.
  apply (main_scores_in_range sample_env blank_world _
           sample_env_unit_samples sample_run_completes).
Defined.

Lemma main_loop_appends_witness :
  exists (w' : world) (new : list row),
    for_each [("Methotrexate", "Synthetic"); ("Folic Acid", "Natural");
              ("Methotrexate", "Natural")]
      (process_item sample_env) (world_with_rows [sample_row]) = (Ok tt, w')
    /\ db w' = Some ([sample_row] ++ new)%list
    /\ length new = 2%nat.
Proof.
  assert (Hrun : for_each [("Methotrexate", "Synthetic");
                           ("Folic Acid", "Natural");
                           ("Methotrexate", "Natural")]
                   (process_item sample_env) (world_with_rows [sample_row])
                 = (Ok tt,
                    snd (for_each [("Methotrexate", "Synthetic");
                                   ("Folic Acid", "Natural");
                                   ("Methotrexate", "Natural")]
                           (process_item sample_env)
                           (world_with_rows [sample_row]))))
    by (vm_compute; reflexivity).
  destruct (main_loop_appends sample_env _ (world_with_rows [sample_row]) _
              [sample_row] eq_refl Hrun)
    as (_ & _ & new & Hdb & Hlen & _).
  eexists; exists new. split; [exact Hrun|]. split; [exact Hdb|].
  rewrite Hlen. vm_compute. reflexivity.
Defined.
